(** * Codebase documentation generator: the three-agent pipeline

    A shallow embedding of [app/agents.py] (the Analyst / Writer / Reviewer
    pipeline, in its returning and its streaming shape) and of [app.py]
    (the Gradio [generate] handler and [save_documentation]), followed by
    the properties the specification states about them.

    Python [str] values are sequences of Unicode code points and are
    modelled as [list N].  Coroutines and async generators are modelled as
    finite trees of effects ([Gen]): awaiting [Runner.run], yielding a
    value, touching the file system, reading the clock.  An interpreter
    ([exec]) runs such a tree against a world and records every effect in
    a log, so that the order of calls and yields can be stated. *)

From Stdlib Require Import NArith List String Ascii Bool Lia.
From stdpp Require Import base option list gmap.

Local Open Scope N_scope.

(** ** Python strings *)

Definition pystr : Type := list N.

(** An ASCII literal of the source as a [pystr]. *)
Definition py (s : string) : pystr :=
  List.map N_of_ascii (list_ascii_of_string s).

Definition NL : pystr := [10].

(** U+26A0 U+FE0F (warning sign), U+23F3 (hourglass), U+2014 (em dash). *)
Definition WARNING_SIGN : pystr := [9888; 65039].
Definition HOURGLASS : pystr := [9203].
Definition EM_DASH : pystr := [8212].

(** [str.isspace] on one code point: the characters [str.strip()] removes. *)
Definition isspace (c : N) : bool :=
  ((9 <=? c) && (c <=? 13)) || ((28 <=? c) && (c <=? 32))
  || (c =? 133) || (c =? 160) || (c =? 5760)
  || ((8192 <=? c) && (c <=? 8202))
  || (c =? 8232) || (c =? 8233) || (c =? 8239) || (c =? 8287)
  || (c =? 12288).

Fixpoint lstrip (s : pystr) : pystr :=
  match s with
  | [] => []
  | c :: t => if isspace c then lstrip t else s
  end.

Definition rstrip (s : pystr) : pystr := rev (lstrip (rev s)).

(** [s.strip()] *)
Definition strip (s : pystr) : pystr := rstrip (lstrip s).

(** Truthiness of a [str]: [bool(s)] is [len(s) != 0]. *)
Definition truthy (s : pystr) : bool :=
  match s with [] => false | _ :: _ => true end.

(** What reading in text mode makes of the newlines of a file: the pairs
    CR LF and the lone CR both become LF. *)
Fixpoint universal_newlines (s : pystr) : pystr :=
  match s with
  | [] => []
  | c :: t =>
      if c =? 13 then
        10 :: match t with
              | d :: t' => if d =? 10 then universal_newlines t'
                           else universal_newlines t
              | [] => []
              end
      else c :: universal_newlines t
  end.

(** A surrogate code point (U+D800 to U+DFFF).  A [str] can hold one on
    its own; UTF-8 cannot encode it. *)
Definition is_surrogate (c : N) : bool := (55296 <=? c) && (c <=? 57343).

Definition has_surrogate (s : pystr) : bool := existsb is_surrogate s.

(** ** Exceptions and outcomes *)

Inductive exn : Type :=
| RunnerError (code : N)      (* whatever [Runner.run] raises: timeout, auth, ... *)
| FileNotFoundError            (* also stands for a file that does not decode *)
| FileExistsError
| IsADirectoryError
| UnicodeEncodeError
| TypeError.

Inductive Outcome (A : Type) : Type :=
| Ok (a : A)
| Raise (e : exn).
Arguments Ok {A} a.
Arguments Raise {A} e.

(** ** The three agents

    Module-level singletons of [app/agents.py].  Their instruction texts
    are constants that the driver never inspects; an agent is identified
    by which of the three objects it is. *)

Inductive Agent : Type := code_analyst | doc_writer | quality_reviewer.

Definition agent_name (a : Agent) : pystr :=
  match a with
  | code_analyst => py "Code Analyst"
  | doc_writer => py "Documentation Writer"
  | quality_reviewer => py "Quality Reviewer"
  end.

(** ** Wall-clock time and [strftime] *)

Record datetime : Type := mkdatetime {
  year : N; month : N; day : N; hour : N; minute : N; second : N;
  microsecond : N; fold : N }.

Definition digit (d : N) : N := 48 + d.

Definition pad2 (n : N) : pystr := [digit (n / 10); digit (n mod 10)].

Definition pad4 (n : N) : pystr :=
  [digit (n / 1000); digit (n / 100 mod 10); digit (n / 10 mod 10); digit (n mod 10)].

(** [dt.strftime("%Y%m%d_%H%M%S")] *)
Definition strftime_Ymd_HMS (dt : datetime) : pystr :=
  pad4 (year dt) ++ pad2 (month dt) ++ pad2 (day dt) ++ py "_"
  ++ pad2 (hour dt) ++ pad2 (minute dt) ++ pad2 (second dt).

(** What [datetime.now()] can return; years below 1000 are left out
    because platforms disagree on how [%Y] pads them. *)
Definition valid_datetime (dt : datetime) : Prop :=
  1000 <= year dt <= 9999 /\ 1 <= month dt <= 12 /\ 1 <= day dt <= 31
  /\ hour dt <= 23 /\ minute dt <= 59 /\ second dt <= 59
  /\ microsecond dt <= 999999 /\ fold dt <= 1.

Definition isdigit (c : N) : bool := (48 <=? c) && (c <=? 57).

(** The shape [YYYYMMDD_HHMMSS]. *)
Definition is_timestamp (s : pystr) : bool :=
  match s with
  | [y1; y2; y3; y4; m1; m2; d1; d2; u; h1; h2; i1; i2; s1; s2] =>
      forallb isdigit [y1; y2; y3; y4; m1; m2; d1; d2; h1; h2; i1; i2; s1; s2]
      && (u =? 95)
  | _ => false
  end.

(** ** Effects, coroutines and generators *)

Inductive Eff : Type -> Type :=
| Runner_run (agent : Agent) (input : pystr) : Eff pystr
    (* [(await Runner.run(agent, input)).final_output] *)
| read_text (name : pystr) : Eff pystr
    (* [open(name, "r", encoding="utf-8").read()] *)
| mkdir_exist_ok (path : pystr) : Eff unit
    (* [Path(path).mkdir(exist_ok=True)] *)
| datetime_now : Eff datetime
| write_text (path content : pystr) : Eff unit.
    (* [open(path, "w", encoding="utf-8").write(content)] *)

(** A coroutine or async generator yielding values of type [Y] and
    returning an [A]. *)
Inductive Gen (Y A : Type) : Type :=
| Ret (a : A)
| Do {X : Type} (e : Eff X) (k : X -> Gen Y A)
| Yield (y : Y) (k : Gen Y A).
Arguments Ret {Y A} a.
Arguments Do {Y A X} e k.
Arguments Yield {Y A} y k.

Fixpoint gen_bind {Y A B} (f : A -> Gen Y B) (g : Gen Y A) : Gen Y B :=
  match g with
  | Ret a => f a
  | Do e k => Do e (fun x => gen_bind f (k x))
  | Yield y k => Yield y (gen_bind f k)
  end.

#[global] Instance Gen_bind {Y} : MBind (Gen Y) := @gen_bind Y.
#[global] Instance Gen_ret {Y} : MRet (Gen Y) := @Ret Y.

Definition await {Y X} (e : Eff X) : Gen Y X := Do e Ret.
Definition yield {Y} (y : Y) : Gen Y unit := Yield y (Ret tt).

(** [async for y in src: s = body(y, s)], with the loop's variables
    threaded as [s]. *)
Fixpoint async_for {Y Z S} (src : Gen Y unit) (body : Y -> S -> Gen Z S) (s : S)
  : Gen Z S :=
  match src with
  | Ret _ => Ret s
  | Do e k => Do e (fun x => async_for (k x) body s)
  | Yield y k => gen_bind (fun s' => async_for k body s') (body y s)
  end.

(** ** The world a run executes in *)

(** What lies outside the process and outside this repository: Python's
    [str.upper], the inference service behind [Runner.run] (any state, any
    answer, any failure) and the clock. *)
Class Platform : Type := {
  upper : pystr -> pystr;
  Outside : Type;
  remote_run : Agent -> pystr -> Outside -> Outcome pystr * Outside;
  clock_now : Outside -> datetime * Outside }.

(** The file system (POSIX) at the level of decoded text: the directories,
    and for each regular file the text its bytes decode to.  What depends
    on more than that (permissions, a full disk) is outside the model. *)
Record FS : Type := mkFS {
  dirs : gset pystr;
  files : gmap pystr pystr }.

(** [open(name, "r", encoding="utf-8").read()]: the text of the file with
    its newlines translated. *)
Definition read_file (f : FS) (name : pystr) : Outcome pystr :=
  match files f !! name with
  | Some text => Ok (universal_newlines text)
  | None =>
      if decide (name ∈ dirs f) then Raise IsADirectoryError
      else Raise FileNotFoundError
  end.

Record World `{Platform} : Type := mkWorld {
  outside : Outside;
  fs : FS }.

Inductive Event (Y : Type) : Type :=
| EvYield (y : Y)
| EvCall (agent : Agent) (input : pystr) (out : Outcome pystr)
| EvRead (name : pystr) (out : Outcome pystr)
| EvMkdir (path : pystr) (out : Outcome unit)
| EvNow (dt : datetime)
| EvWrite (path content : pystr) (out : Outcome unit).
Arguments EvYield {Y} y.
Arguments EvCall {Y} agent input out.
Arguments EvRead {Y} name out.
Arguments EvMkdir {Y} path out.
Arguments EvNow {Y} dt.
Arguments EvWrite {Y} path content out.

Record Run `{Platform} (Y A : Type) : Type := mkRun {
  log : list (Event Y);
  result : Outcome A;
  final : World }.
Arguments mkRun {_ Y A} log result final.
Arguments log {_ Y A} r.
Arguments result {_ Y A} r.
Arguments final {_ Y A} r.

Section Interpreter.
Context `{P : Platform}.

(** One effect against the world: its outcome, the world after it and
    the event it leaves in the log. *)
Definition handle {Y X} (e : Eff X) (w : World)
  : Outcome X * World * Event Y :=
  match e in Eff X return Outcome X * World * Event Y with
  | Runner_run agent input =>
      let '(r, o) := remote_run agent input (outside w) in
      (r, mkWorld _ o (fs w), EvCall agent input r)
  | read_text name =>
      (read_file (fs w) name, w, EvRead name (read_file (fs w) name))
  | mkdir_exist_ok path =>
      match files (fs w) !! path with
      | Some _ =>
          (Raise FileExistsError, w, EvMkdir path (Raise FileExistsError))
      | None =>
          (Ok tt,
           mkWorld _ (outside w) (mkFS ({[path]} ∪ dirs (fs w)) (files (fs w))),
           EvMkdir path (Ok tt))
      end
  | datetime_now =>
      let '(dt, o) := clock_now (outside w) in
      (Ok dt, mkWorld _ o (fs w), EvNow dt)
  | write_text path content =>
      if decide (path ∈ dirs (fs w)) then
        (* [open] refuses a directory *)
        (Raise IsADirectoryError, w, EvWrite path content (Raise IsADirectoryError))
      else if has_surrogate content then
        (* [open] has created or emptied the file; [write] cannot encode *)
        (Raise UnicodeEncodeError,
         mkWorld _ (outside w) (mkFS (dirs (fs w)) (<[path:=[]]> (files (fs w)))),
         EvWrite path content (Raise UnicodeEncodeError))
      else
        (Ok tt,
         mkWorld _ (outside w) (mkFS (dirs (fs w)) (<[path:=content]> (files (fs w)))),
         EvWrite path content (Ok tt))
  end.

Definition after {Y A} (ev : Event Y) (r : Run Y A) : Run Y A :=
  mkRun (ev :: log r) (result r) (final r).

(** Running a coroutine or generator to its end.  An effect that raises
    ends the run there: nothing in this repository catches exceptions. *)
Fixpoint exec {Y A} (g : Gen Y A) (w : World) : Run Y A :=
  match g with
  | Ret a => mkRun [] (Ok a) w
  | Yield y k => after (EvYield y) (exec k w)
  | Do e k =>
      match handle e w with
      | (Ok x, w', ev) => after ev (exec (k x) w')
      | (Raise ex, w', ev) => mkRun [ev] (Raise ex) w'
      end
  end.

(** The remote calls of a log, and the values it yields, in order. *)
Fixpoint calls {Y} (l : list (Event Y)) : list (Agent * pystr * Outcome pystr) :=
  match l with
  | [] => []
  | EvCall a i o :: t => (a, i, o) :: calls t
  | _ :: t => calls t
  end.

Fixpoint yields {Y} (l : list (Event Y)) : list Y :=
  match l with
  | [] => []
  | EvYield y :: t => y :: yields t
  | _ :: t => yields t
  end.

Fixpoint writes {Y} (l : list (Event Y)) : list (pystr * pystr) :=
  match l with
  | [] => []
  | EvWrite p c (Ok _) :: t => (p, c) :: writes t
  | _ :: t => writes t
  end.

(** ** app/agents.py *)

Definition NO_CODE_WARNING : pystr :=
  WARNING_SIGN ++ py " No code was provided. Please paste or upload a file.".

(** [async def run_pipeline(code, language) -> str] *)
Definition run_pipeline (code language : pystr) : Gen Empty_set pystr :=
  if negb (truthy (strip code)) then
    Ret NO_CODE_WARNING
  else
    analysis ← await (Runner_run code_analyst
      (py "Analyse this " ++ language ++ py " code thoroughly:" ++ NL
       ++ NL
       ++ code));
    draft_docs ← await (Runner_run doc_writer
      (py "Write complete professional documentation using this analysis:" ++ NL
       ++ NL
       ++ py "--- ANALYSIS ---" ++ NL
       ++ analysis ++ NL
       ++ NL
       ++ py "--- ORIGINAL " ++ upper language ++ py " CODE (for reference) ---" ++ NL
       ++ code));
    review ← await (Runner_run quality_reviewer
      (py "Review and polish this documentation against the original code." ++ NL
       ++ NL
       ++ py "--- DOCUMENTATION TO REVIEW ---" ++ NL
       ++ draft_docs ++ NL
       ++ NL
       ++ py "--- ORIGINAL " ++ upper language ++ py " CODE ---" ++ NL
       ++ code));
    Ret review.

Definition STEP_1 : pystr :=
  HOURGLASS ++ py " Step 1 of 3 " ++ EM_DASH
  ++ py " Code Analyst is reading your code...".
Definition STEP_2 : pystr :=
  HOURGLASS ++ py " Step 2 of 3 " ++ EM_DASH
  ++ py " Documentation Writer is drafting the docs...".
Definition STEP_3 : pystr :=
  HOURGLASS ++ py " Step 3 of 3 " ++ EM_DASH
  ++ py " Quality Reviewer is checking and polishing...".

(** [async def stream_pipeline(code, language) -> AsyncGenerator[str, None]] *)
Definition stream_pipeline (code language : pystr) : Gen pystr unit :=
  if negb (truthy (strip code)) then
    yield NO_CODE_WARNING
  else
    yield STEP_1;;
    analysis ← await (Runner_run code_analyst
      (py "Analyse this " ++ language ++ py " code thoroughly:" ++ NL ++ NL ++ code));
    yield STEP_2;;
    draft_docs ← await (Runner_run doc_writer
      (py "Write complete professional documentation using this analysis:" ++ NL
       ++ NL
       ++ py "--- ANALYSIS ---" ++ NL
       ++ analysis ++ NL
       ++ NL
       ++ py "--- ORIGINAL " ++ upper language ++ py " CODE (for reference) ---" ++ NL
       ++ code));
    yield STEP_3;;
    review ← await (Runner_run quality_reviewer
      (py "Review and polish this documentation against the original code." ++ NL
       ++ NL
       ++ py "--- DOCUMENTATION TO REVIEW ---" ++ NL
       ++ draft_docs ++ NL
       ++ NL
       ++ py "--- ORIGINAL " ++ upper language ++ py " CODE ---" ++ NL
       ++ code));
    yield review.

(** ** app.py *)

(** [def save_documentation(content) -> str] *)
Definition save_documentation {Y} (content : pystr) : Gen Y pystr :=
  let temp_dir := py "temp" in
  await (mkdir_exist_ok temp_dir);;
  now ← await datetime_now;
  let timestamp := strftime_Ymd_HMS now in
  let filepath := temp_dir ++ py "/" ++ (py "documentation_" ++ timestamp ++ py ".md") in
  await (write_text filepath content);;
  Ret filepath.

Definition PLEASE_PASTE_WARNING : pystr :=
  WARNING_SIGN ++ py " Please paste code or upload a file first.".

(** [async def generate(code_input, file_input, language)]: yields pairs
    [(output_text, download_path)].  [file_input] is the uploaded file's
    [.name], or [None]. *)
Definition generate (code_input : pystr) (file_input : option pystr)
    (language : pystr) : Gen (pystr * option pystr) unit :=
  code ← match file_input with
         | Some name => await (read_text name)
         | None => Ret code_input
         end;
  if negb (truthy (strip code)) then
    yield (PLEASE_PASTE_WARNING, None)
  else
    final_output ← async_for (stream_pipeline code language)
                      (fun chunk _ => yield (chunk, None);; Ret chunk) [];
    if truthy (strip final_output) then
      download_path ← save_documentation final_output;
      yield (final_output, Some download_path)
    else
      Ret tt.

End Interpreter.

(** ** Concrete platforms, for running the model *)

(** [str.upper] restricted to ASCII letters. *)
Definition ascii_upper (s : pystr) : pystr :=
  List.map (fun c => if (97 <=? c) && (c <=? 122) then c - 32 else c) s.

(** A service that answers from a finite script, call after call, whatever
    it is asked, and fails once the script is used up; the clock stands
    still at [dt]. *)
Definition scripted (dt : datetime) : Platform := {|
  upper := ascii_upper;
  Outside := list (Outcome pystr);
  remote_run := fun _ _ script =>
    match script with
    | [] => (Raise (RunnerError 0), [])
    | r :: rest => (r, rest)
    end;
  clock_now := fun o => (dt, o) |}.

(** The inference call as a function of the agent and the prompt text
    alone. *)
Definition stateless (up : pystr -> pystr) (f : Agent -> pystr -> Outcome pystr)
    (dt : datetime) : Platform := {|
  upper := up;
  Outside := unit;
  remote_run := fun a p o => (f a p, o);
  clock_now := fun o => (dt, o) |}.

Definition noon : datetime := mkdatetime 2025 3 9 12 0 7 250000 0.

Definition empty_fs : FS := mkFS ∅ ∅.

Definition sample_code : pystr := py "def add(a, b): return a + b".


(** ** Module-level configuration of app/agents.py *)

Module Config.

Definition OPENROUTER_API_KEY : pystr := py "OPENROUTER_API_KEY".
Definition OPENAI_API_KEY : pystr := py "OPENAI_API_KEY".
Definition OPENAI_BASE_URL : pystr := py "OPENAI_BASE_URL".
Definition MODEL_VAR : pystr := py "MODEL".
Definition OPENROUTER_URL : pystr := py "https://openrouter.ai/api/v1".
Definition DEFAULT_MODEL : pystr := py "openai/gpt-4o-mini".

(** [load_dotenv(override=True)]: the entries of the [.env] file replace
    those of the process environment.  [dotenv] holds the values of the
    file as they are resolved at this load. *)
Definition load_dotenv_override (dotenv environ : gmap pystr pystr)
  : gmap pystr pystr := dotenv ∪ environ.

(** [os.getenv(key)] and [os.getenv(key, default)] *)
Definition getenv (environ : gmap pystr pystr) (key : pystr) : option pystr :=
  environ !! key.
Definition getenv_default (environ : gmap pystr pystr) (key default : pystr)
  : pystr :=
  match environ !! key with Some v => v | None => default end.

Record Settings : Type := mkSettings {
  environ_after : gmap pystr pystr;   (* [os.environ] once the module is loaded *)
  MODEL : pystr }.

(** What the SDK's client reads when it is created. *)
Definition api_key (s : Settings) : option pystr :=
  environ_after s !! OPENAI_API_KEY.
Definition base_url (s : Settings) : option pystr :=
  environ_after s !! OPENAI_BASE_URL.

(** Lines 31 to 38 of app/agents.py.  Assigning [None] into
    [os.environ] raises [TypeError]. *)
Definition configure (dotenv environ : gmap pystr pystr) : Outcome Settings :=
  let env0 := load_dotenv_override dotenv environ in
  match getenv env0 OPENROUTER_API_KEY with
  | None => Raise TypeError
  | Some key =>
      let env1 := <[OPENAI_API_KEY := key]> env0 in
      let env2 := <[OPENAI_BASE_URL := OPENROUTER_URL]> env1 in
      Ok (mkSettings env2 (getenv_default env2 MODEL_VAR DEFAULT_MODEL))
  end.

End Config.

(** ** Sample runs *)

Definition python : pystr := py "Python".

(** Spaces, a line feed and a tab. *)
Definition blank_code : pystr := [32; 32; 10; 9; 32].

(** Every stage answers. *)
Definition healthy : @World (scripted noon) :=
  mkWorld (scripted noon)
    [Ok (py "analysis"); Ok (py "draft"); Ok (py "# add")] empty_fs.

(** The service is down: the first call already fails. *)
Definition outage : @World (scripted noon) :=
  mkWorld (scripted noon) [] empty_fs.

(** The Writer call fails. *)
Definition writer_down : @World (scripted noon) :=
  mkWorld (scripted noon) [Ok (py "analysis"); Raise (RunnerError 504)] empty_fs.

(** Every stage answers, the Reviewer with white space only. *)
Definition blank_review : @World (scripted noon) :=
  mkWorld (scripted noon)
    [Ok (py "analysis"); Ok (py "draft"); Ok [32; 32; 10]] empty_fs.

Definition sample_writer_input : pystr :=
  py "Write complete professional documentation using this analysis:" ++ NL
  ++ NL
  ++ py "--- ANALYSIS ---" ++ NL
  ++ py "analysis" ++ NL
  ++ NL
  ++ py "--- ORIGINAL PYTHON CODE (for reference) ---" ++ NL
  ++ sample_code.

Definition sample_analyst_input : pystr :=
  py "Analyse this Python code thoroughly:" ++ NL ++ NL ++ sample_code.

(** An environment that provides a key and its own endpoint. *)
Definition local_environ : gmap pystr pystr :=
  <[Config.OPENROUTER_API_KEY := py "sk-or-1"]>
    (<[Config.OPENAI_BASE_URL := py "http://localhost:8000/v1"]> ∅).

(** ** Observations on runs *)

Section Observations.
Context `{P : Platform}.

(** [l] followed by the run [r]. *)
Definition prepend {Y A} (l : list (Event Y)) (r : Run Y A) : Run Y A :=
  mkRun (l ++ log r) (result r) (final r).

(** How [generate] relays one event of the pipeline it consumes. *)
Definition relay (ev : Event pystr) : Event (pystr * option pystr) :=
  match ev with
  | EvYield y => EvYield (y, None)
  | EvCall a i o => EvCall a i o
  | EvRead n o => EvRead n o
  | EvMkdir p o => EvMkdir p o
  | EvNow dt => EvNow dt
  | EvWrite p c o => EvWrite p c o
  end.

End Observations.

Definition succeeded {A} (o : Outcome A) : bool :=
  match o with Ok _ => true | Raise _ => false end.

(** No remote call of the log raised. *)
Definition all_calls_succeed {Y} (l : list (Event Y)) : bool :=
  forallb (fun c => succeeded (snd c)) (calls l).

(** [sub] occurs in [s] as a contiguous piece. *)
Definition contains (s sub : pystr) : Prop :=
  exists before after, s = before ++ sub ++ after.

Definition agent_eqb (a b : Agent) : bool :=
  match a, b with
  | code_analyst, code_analyst | doc_writer, doc_writer
  | quality_reviewer, quality_reviewer => true
  | _, _ => false
  end.

(** Some call to [stage] in the log raised. *)
Definition stage_failed {Y} (stage : Agent) (l : list (Event Y)) : bool :=
  existsb (fun c => agent_eqb (fst (fst c)) stage && negb (succeeded (snd c)))
          (calls l).

(** The prompt [input] closes with the line [marker] followed by exactly
    [code]. *)
Definition ends_with_code (marker input code : pystr) : Prop :=
  exists before, input = before ++ marker ++ NL ++ code.

(** The path [save_documentation] writes to at time [dt]. *)
Definition documentation_path (dt : datetime) : pystr :=
  py "temp" ++ py "/" ++ (py "documentation_" ++ strftime_Ymd_HMS dt ++ py ".md").

(** The line that announces the original code in the prompt of each
    stage. *)
Definition code_marker (a : Agent) : pystr :=
  match a with
  | code_analyst => py " code thoroughly:" ++ NL
  | doc_writer => py " CODE (for reference) ---"
  | quality_reviewer => py " CODE ---"
  end.

(** The stages in the order the driver runs them, and the progress
    string [stream_pipeline] shows before each. *)
Definition STAGES : list Agent := [code_analyst; doc_writer; quality_reviewer].
Definition PROGRESS : list pystr := [STEP_1; STEP_2; STEP_3].

(** The agents a log calls, in order. *)
Definition agents_called {Y} (l : list (Event Y)) : list Agent :=
  List.map (fun c => fst (fst c)) (calls l).

(** The answer of the last call of a log, when it gave one. *)
Definition last_answer {Y} (l : list (Event Y)) : list pystr :=
  match last (calls l) with
  | Some (_, _, Ok a) => [a]
  | _ => []
  end.

(** An event that is a remote call or a yield: no file, no clock. *)
Definition call_or_yield {Y} (ev : Event Y) : bool :=
  match ev with
  | EvYield _ | EvCall _ _ _ => true
  | _ => false
  end.

(** Two downloads saved one after the other, as two clicks on the
    button end. *)
Definition save_twice {Y} (doc1 doc2 : pystr) : Gen Y (pystr * pystr) :=
  p1 ← save_documentation doc1;
  p2 ← save_documentation doc2;
  Ret (p1, p2).

(** Later within the second of [noon], and one second after it. *)
Definition noon_and_a_half : datetime := mkdatetime 2025 3 9 12 0 7 750000 0.
Definition noon_later : datetime := mkdatetime 2025 3 9 12 0 8 250000 0.

(** Two readings [strftime_Ymd_HMS] prints alike: the same wall-clock
    second.  The microsecond and the fold are not printed. *)
Definition same_second (dt1 dt2 : datetime) : Prop :=
  year dt1 = year dt2 /\ month dt1 = month dt2 /\ day dt1 = day dt2
  /\ hour dt1 = hour dt2 /\ minute dt1 = minute dt2 /\ second dt1 = second dt2.

(** A service that is down and a clock that gives the readings of a
    list, one after the other, and stays at the last one. *)
Definition clocked : Platform := {|
  upper := ascii_upper;
  Outside := datetime * list datetime;
  remote_run := fun _ _ o => (Raise (RunnerError 0), o);
  clock_now := fun o =>
    match snd o with
    | [] => (fst o, o)
    | next :: rest => (fst o, (next, rest))
    end |}.

(** A reviewer's answer with a lone surrogate (U+D800) in it. *)
Definition broken_document : pystr := py "# add " ++ [55296].
Definition broken_review : @World (scripted noon) :=
  mkWorld (scripted noon)
    [Ok (py "analysis"); Ok (py "draft"); Ok broken_document] empty_fs.

(** A regular file named [temp] stands where the directory should be. *)
Definition temp_taken : @World (scripted noon) :=
  mkWorld (scripted noon)
    [Ok (py "analysis"); Ok (py "draft"); Ok (py "# add")]
    (mkFS ∅ (<[py "temp" := py "not a directory"]> ∅)).

(** A [.env] file with a key and a model, and a process environment with
    other values for both. *)
Definition sample_dotenv : gmap pystr pystr :=
  <[Config.OPENROUTER_API_KEY := py "sk-or-env-file"]>
    (<[Config.MODEL_VAR := py "anthropic/claude-3-haiku"]> ∅).
Definition sample_environ : gmap pystr pystr :=
  <[Config.OPENROUTER_API_KEY := py "sk-or-shell"]>
    (<[Config.MODEL_VAR := py "openai/gpt-4o"]>
       (<[py "HOME" := py "/home/dev"]> ∅)).

(** Loading the module when the values of the [.env] file depend on the
    environment they are resolved in: python-dotenv expands [${VAR}]
    against the environment of the moment. *)
Definition load_with (env_file : gmap pystr pystr -> gmap pystr pystr)
    (environ : gmap pystr pystr) : Outcome Config.Settings :=
  Config.configure (env_file environ) environ.

(** A [.env] file with a key and the line [MODEL=${OPENAI_BASE_URL}]; a
    variable that is not set expands to the empty string. *)
Definition referring_env_file (environ : gmap pystr pystr) : gmap pystr pystr :=
  <[Config.OPENROUTER_API_KEY := py "sk-or-env-file"]>
    (<[Config.MODEL_VAR :=
         match environ !! Config.OPENAI_BASE_URL with
         | Some url => url
         | None => []
         end]> ∅).

(** A file system with an uploaded file of white space and a note. *)
Definition upload_fs : FS :=
  mkFS ∅ (<[py "/tmp/gradio/blank.py" := [10; 32; 32; 10]]>
            (<[py "notes.txt" := py "keep me"]> ∅)).
Definition with_upload : @World (scripted noon) :=
  mkWorld (scripted noon)
    [Ok (py "analysis"); Ok (py "draft"); Ok (py "# add")] upload_fs.

(** Every stage answers, the Analyst otherwise than in [healthy]. *)
Definition healthy_other : @World (scripted noon) :=
  mkWorld (scripted noon)
    [Ok (py "another analysis"); Ok (py "draft"); Ok (py "# add, again")] empty_fs.

Definition sample_writer_input_other : pystr :=
  py "Write complete professional documentation using this analysis:" ++ NL
  ++ NL
  ++ py "--- ANALYSIS ---" ++ NL
  ++ py "another analysis" ++ NL
  ++ NL
  ++ py "--- ORIGINAL PYTHON CODE (for reference) ---" ++ NL
  ++ sample_code.

Definition sample_reviewer_input : pystr :=
  py "Review and polish this documentation against the original code." ++ NL
  ++ NL
  ++ py "--- DOCUMENTATION TO REVIEW ---" ++ NL
  ++ py "draft" ++ NL
  ++ NL
  ++ py "--- ORIGINAL PYTHON CODE ---" ++ NL
  ++ sample_code.

(** * Properties *)

Arguments py : simpl never.

(** ** Strings *)

Lemma truthy_false (s : pystr) : truthy s = false <-> s = [].
Proof. destruct s; simpl; split; congruence. Qed.

Lemma truthy_true (s : pystr) : truthy s = true <-> s <> [].
Proof. destruct s; simpl; split; congruence. Qed.

Lemma lstrip_nil (s : pystr) : lstrip s = [] <-> forallb isspace s = true.
Proof.
  induction s as [|c t IH]; simpl; [tauto|].
  destruct (isspace c); simpl; [exact IH|]. split; discriminate.
Qed.

Lemma lstrip_idem (s : pystr) : lstrip (lstrip s) = lstrip s.
Proof.
  induction s as [|c t IH]; [reflexivity|].
  simpl. destruct (isspace c) eqn:E; [exact IH|]. simpl. now rewrite E.
Qed.

Lemma forallb_isspace_rev (s : pystr) :
  forallb isspace (rev s) = forallb isspace s.
Proof.
  induction s as [|c t IH]; [reflexivity|].
  simpl. rewrite forallb_app, IH. simpl. rewrite andb_true_r. apply andb_comm.
Qed.

(** Trimming leaves nothing exactly when every character is white space. *)
Lemma strip_nil (s : pystr) : strip s = [] <-> forallb isspace s = true.
Proof.
  unfold strip, rstrip. rewrite <- lstrip_nil. split.
  - intros H. apply (f_equal (@rev N)) in H. rewrite rev_involutive in H.
    simpl in H. apply lstrip_nil in H. rewrite forallb_isspace_rev in H.
    apply lstrip_nil in H. now rewrite lstrip_idem in H.
  - intros H. now rewrite H.
Qed.

(** Translating the newlines of a blank text leaves it blank. *)
Lemma universal_newlines_blank (s : pystr) :
  forallb isspace s = true -> forallb isspace (universal_newlines s) = true.
Proof.
  enough (H : (forallb isspace s = true
               -> forallb isspace (universal_newlines s) = true)
              /\ forall c, forallb isspace (c :: s) = true
                           -> forallb isspace (universal_newlines (c :: s)) = true)
    by exact (proj1 H).
  induction s as [|d t [IHt IHc]].
  - split; [reflexivity|]. intros c Hc. simpl in *.
    destruct (c =? 13); [reflexivity|exact Hc].
  - split; [exact (IHc d)|]. intros c Hc.
    change (forallb isspace (c :: d :: t))
      with (isspace c && forallb isspace (d :: t)) in Hc.
    apply andb_true_iff in Hc as [Hc Hdt].
    change (universal_newlines (c :: d :: t))
      with (if c =? 13
            then 10 :: (if d =? 10 then universal_newlines t
                        else universal_newlines (d :: t))
            else c :: universal_newlines (d :: t)).
    destruct (c =? 13).
    + change (forallb isspace (10 :: ?l)) with (forallb isspace l).
      destruct (d =? 10); [|exact (IHc d Hdt)].
      apply IHt. simpl in Hdt. apply andb_true_iff in Hdt. tauto.
    + change (forallb isspace (c :: ?l)) with (isspace c && forallb isspace l).
      rewrite Hc. exact (IHc d Hdt).
Qed.

Lemma last_cons {A} (l : list A) (a d : A) : List.last (a :: l) d = List.last l a.
Proof.
  revert a d. induction l as [|b l IH]; intros a d; [reflexivity|].
  change (List.last (b :: l) d = List.last (b :: l) a).
  now rewrite !IH.
Qed.

Lemma contains_here (sub rest : pystr) : contains (sub ++ rest) sub.
Proof. exists [], rest. reflexivity. Qed.

Lemma contains_later (p s sub : pystr) : contains s sub -> contains (p ++ s) sub.
Proof.
  intros (b & a & ->). exists (p ++ b), a. now rewrite <- app_assoc.
Qed.

Lemma ends_here (marker code : pystr) :
  ends_with_code marker (marker ++ NL ++ code) code.
Proof. exists []. reflexivity. Qed.

Lemma ends_here_assoc (m code : pystr) :
  ends_with_code (m ++ NL) (m ++ NL ++ NL ++ code) code.
Proof. exists []. simpl. now rewrite <- app_assoc. Qed.

Lemma ends_later (marker p s code : pystr) :
  ends_with_code marker s code -> ends_with_code marker (p ++ s) code.
Proof.
  intros (b & ->). exists (p ++ b). now rewrite <- app_assoc.
Qed.

Lemma last_Some_default {A} (l : list A) (x d : A) :
  last l = Some x -> List.last l d = x.
Proof.
  revert d. induction l as [|a l IH]; intros d H; [discriminate|].
  rewrite last_cons. destruct l as [|b l]; [now injection H|].
  apply IH. exact H.
Qed.

Lemma isdigit_digit (d : N) : d <= 9 -> isdigit (digit d) = true.
Proof.
  intros H. unfold isdigit, digit.
  apply andb_true_iff. split; apply N.leb_le; lia.
Qed.

Lemma mod10_digit (n : N) : n mod 10 <= 9.
Proof. pose proof (N.mod_upper_bound n 10). lia. Qed.

Lemma div_digit (n b : N) : b <> 0 -> n < b * 10 -> n / b <= 9.
Proof.
  intros Hb H. assert (n / b < 10); [|lia].
  apply N.Div0.div_lt_upper_bound; assumption.
Qed.

(** A valid date and time prints as [YYYYMMDD_HHMMSS]. *)
Lemma strftime_shape (dt : datetime) :
  valid_datetime dt -> is_timestamp (strftime_Ymd_HMS dt) = true.
Proof.
  intros (Hy & Hm & Hd & Hh & Hi & Hs).
  unfold strftime_Ymd_HMS, pad4, pad2, is_timestamp, py.
  cbn -[N.div N.modulo isdigit digit].
  rewrite !isdigit_digit; try reflexivity;
    first [apply mod10_digit | apply div_digit; lia].
Qed.

(** Walks down a prompt, piece by piece, to the piece looked for. *)
Ltac find_piece :=
  repeat lazymatch goal with
  | |- contains (?x ++ ?r) ?x => apply (contains_here x r)
  | |- contains (?p ++ ?s) ?x => apply (contains_later p s x)
  | |- ends_with_code ?m (?m ++ NL ++ ?c) ?c => apply (ends_here m c)
  | |- ends_with_code (?m ++ NL) (?m ++ NL ++ NL ++ ?c) ?c =>
      apply (ends_here_assoc m c)
  | |- ends_with_code ?m (?p ++ ?s) ?c => apply (ends_later m p s c)
  end.

(** ** The interpreter *)

Section Exec.
Context `{P : Platform}.

(** Sequencing: the second part runs in the world the first part left,
    and does not run at all when the first part raised. *)
Lemma exec_bind {Y A B} (g : Gen Y A) (f : A -> Gen Y B) (w : World) :
  exec (g ≫= f) w =
  match result (exec g w) with
  | Ok a => prepend (log (exec g w)) (exec (f a) (final (exec g w)))
  | Raise e => mkRun (log (exec g w)) (Raise e) (final (exec g w))
  end.
Proof.
  unfold mbind, Gen_bind.
  revert w. induction g as [a|X e k IH|y k IH]; intros w; simpl.
  - unfold prepend. simpl. now destruct (exec (f a) w).
  - destruct (handle e w) as [[[x|ex] w'] ev]; simpl; [|reflexivity].
    rewrite IH. now destruct (result (exec (k x) w')).
  - rewrite IH. now destruct (result (exec k w)).
Qed.

(** The [async for] loop of [generate]: every chunk is passed on with
    no download path, and [final_output] ends as the last chunk. *)
Lemma exec_relay_loop (src : Gen pystr unit) (s0 : pystr) (w : World) :
  exec (async_for src
          (fun chunk _ => yield (chunk, @None pystr);; Ret chunk) s0) w =
  mkRun (List.map relay (log (exec src w)))
        (match result (exec src w) with
         | Ok _ => Ok (List.last (yields (log (exec src w))) s0)
         | Raise e => Raise e
         end)
        (final (exec src w)).
Proof.
  revert s0 w. induction src as [a|X e k IH|y k IH]; intros s0 w.
  - reflexivity.
  - cbn [async_for exec]. destruct e; cbn [handle].
    + destruct (remote_run agent input (outside w)) as [[x|ex] o]; simpl;
        [rewrite IH|]; reflexivity.
    + destruct (read_file (fs w) name) as [x|ex]; simpl;
        [rewrite IH|]; reflexivity.
    + destruct (files (fs w) !! path); simpl; [|rewrite IH]; reflexivity.
    + destruct (clock_now (outside w)) as [dt o]; simpl. rewrite IH. reflexivity.
    + destruct (decide (path ∈ dirs (fs w))); [reflexivity|].
      destruct (has_surrogate content); simpl; [|rewrite IH]; reflexivity.
  - cbn -[List.last]. rewrite IH. cbn -[List.last]. now rewrite last_cons.
Qed.

End Exec.

(** ** The pipeline driver *)

(** Runs the stages of a pipeline symbolically: one case per outcome of
    each remote call. *)
Ltac run_stage :=
  match goal with
  | |- context [remote_run ?a ?i ?o] =>
      let r := fresh "r" in let o' := fresh "o" in let E := fresh "E" in
      destruct (remote_run a i o) as [[r|r] o'] eqn:E; cbn -[py app]
  end.

(** Splits a membership in an explicit list of calls into its cases. *)
Ltac split_in H :=
  repeat match type of H with
  | _ \/ _ => destruct H as [H|H]
  | False => destruct H
  | (_, _, Ok _) = (_, _, Raise _) =>
      apply pair_equal_spec in H as [_ H]; discriminate H
  | (_, _, _) = (?a, ?i, ?o) =>
      let Ho := fresh "Ho" in
      apply pair_equal_spec in H as [H Ho];
      apply pair_equal_spec in H as [? ?];
      try (injection Ho as Ho); subst
  end.

Ltac enter_pipeline Hne :=
  unfold stream_pipeline, run_pipeline;
  rewrite Hne; cbn -[py app].

Section Pipeline.
Context `{P : Platform}.
Implicit Types (code language : pystr) (w : World).

(** Both entry points make the same remote calls and end the same way:
    what [run_pipeline] returns is the last value [stream_pipeline]
    yields, and what one raises the other raises. *)
Lemma run_stream_agree code language w :
  let r := exec (run_pipeline code language) w in
  let s := exec (stream_pipeline code language) w in
  calls (log r) = calls (log s) /\ final r = final s /\
  match result r with
  | Ok v => result s = Ok tt /\ last (yields (log s)) = Some v
  | Raise e => result s = Raise e
  end.
Proof.
  destruct (truthy (strip code)) eqn:Hne.
  - enter_pipeline Hne. repeat run_stage; repeat split; reflexivity.
  - enter_pipeline Hne. repeat split; reflexivity.
Qed.

(** The streaming pipeline never touches the file system. *)
Lemma stream_pipeline_fs code language w :
  fs (final (exec (stream_pipeline code language) w)) = fs w
  /\ writes (log (exec (stream_pipeline code language) w)) = [].
Proof.
  destruct (truthy (strip code)) eqn:Hne; enter_pipeline Hne;
    repeat run_stage; split; reflexivity.
Qed.

(** C3.  When the code is empty once trimmed (white space only included),
    [run_pipeline] returns the fixed warning and [stream_pipeline] yields
    it as its only value; neither makes a remote call nor changes the
    world. *)
Theorem empty_code_short_circuits code language w :
  strip code = [] ->
  exec (run_pipeline code language) w = mkRun [] (Ok NO_CODE_WARNING) w
  /\ exec (stream_pipeline code language) w
     = mkRun [EvYield NO_CODE_WARNING] (Ok tt) w
  /\ calls (log (exec (run_pipeline code language) w)) = []
  /\ calls (log (exec (stream_pipeline code language) w)) = []
  /\ yields (log (exec (stream_pipeline code language) w)) = [NO_CODE_WARNING].
Proof.
  intros Hempty. apply truthy_false in Hempty.
  unfold run_pipeline, stream_pipeline. rewrite Hempty.
  repeat split; reflexivity.
Qed.

(** C2.  On code that is not empty once trimmed, when no remote call
    fails, [stream_pipeline] produces exactly four values: the three
    progress strings, each right before the call of its stage, and then
    the Reviewer's output, which is the last value. *)
Theorem stream_pipeline_yields_four code language w :
  strip code <> [] ->
  all_calls_succeed (log (exec (stream_pipeline code language) w)) = true ->
  exists i1 a1 i2 a2 i3 a3,
    log (exec (stream_pipeline code language) w) =
      [EvYield STEP_1; EvCall code_analyst i1 (Ok a1);
       EvYield STEP_2; EvCall doc_writer i2 (Ok a2);
       EvYield STEP_3; EvCall quality_reviewer i3 (Ok a3);
       EvYield a3]
    /\ yields (log (exec (stream_pipeline code language) w))
       = [STEP_1; STEP_2; STEP_3; a3]
    /\ last (yields (log (exec (stream_pipeline code language) w))) = Some a3
    /\ result (exec (stream_pipeline code language) w) = Ok tt.
Proof.
  intros Hne. apply truthy_true in Hne. unfold all_calls_succeed.
  enter_pipeline Hne. repeat run_stage; try discriminate.
  intros _. do 6 eexists. repeat split; reflexivity.
Qed.

(** C1, as the code has it.  On code that is not empty once trimmed, when
    neither the Analyst call nor the Writer call fails, both entry points
    make exactly three remote calls, Analyst then Writer then Reviewer;
    the Writer's input contains the Analyst's whole output and the
    Reviewer's input contains the Writer's whole output. *)
Theorem three_calls_in_order code language w :
  strip code <> [] ->
  stage_failed code_analyst (log (exec (run_pipeline code language) w)) = false ->
  stage_failed doc_writer (log (exec (run_pipeline code language) w)) = false ->
  exists i1 a1 i2 a2 i3 o3,
    calls (log (exec (run_pipeline code language) w)) =
      [(code_analyst, i1, Ok a1); (doc_writer, i2, Ok a2);
       (quality_reviewer, i3, o3)]
    /\ calls (log (exec (stream_pipeline code language) w)) =
      [(code_analyst, i1, Ok a1); (doc_writer, i2, Ok a2);
       (quality_reviewer, i3, o3)]
    /\ contains i2 a1 /\ contains i3 a2.
Proof.
  intros Hne. apply truthy_true in Hne. unfold stage_failed.
  enter_pipeline Hne. repeat run_stage; try discriminate; intros _ _.
  all: do 6 eexists; split; [reflexivity|]; split; [reflexivity|].
  all: split; find_piece.
Qed.

(** C7.  Whatever the earlier stages answered, every Writer call and every
    Reviewer call of either entry point gets a prompt whose last section,
    after the line that announces the original code, is the submitted
    code itself. *)
Theorem code_reaches_later_stages_unchanged code language w a i o :
  In (a, i, o) (calls (log (exec (run_pipeline code language) w)))
  \/ In (a, i, o) (calls (log (exec (stream_pipeline code language) w))) ->
  ends_with_code (code_marker a) i code.
Proof.
  intros H.
  assert (In (a, i, o) (calls (log (exec (run_pipeline code language) w)))) as H'.
  { destruct (run_stream_agree code language w) as [Hc _]. cbv zeta in Hc.
    rewrite Hc in H |- *. tauto. }
  clear H. revert H'.
  destruct (truthy (strip code)) eqn:Hne; enter_pipeline Hne;
    [|intros []].
  repeat run_stage; cbn -[py app]; intros H.
  all: repeat match type of H with
       | _ \/ _ => destruct H as [H|H]
       | False => destruct H
       | (_, _, _) = _ =>
           apply pair_equal_spec in H as [H ?];
           apply pair_equal_spec in H as [? ?]; subst a i o
       end.
  all: cbn [code_marker];
    find_piece.
Qed.

End Pipeline.

(** C8.  With the inference call a function of the agent and the prompt
    alone, the two entry points send the same prompts to the same agents
    and agree on the final result: what [run_pipeline] returns is the
    last value [stream_pipeline] yields (the warning on empty code
    included), and if one raises so does the other. *)
Theorem entry_points_agree up f dt code language
    (w : @World (stateless up f dt)) :
  let r := exec (run_pipeline (P := stateless up f dt) code language) w in
  let s := exec (stream_pipeline (P := stateless up f dt) code language) w in
  calls (log r) = calls (log s)
  /\ match result r with
     | Ok v => result s = Ok tt /\ last (yields (log s)) = Some v
     | Raise e => result s = Raise e
     end.
Proof.
  destruct (run_stream_agree (P := stateless up f dt) code language w)
    as (Hcalls & _ & Hres).
  split; assumption.
Qed.

(** ** The [generate] handler *)

Section Generate.
Context `{P : Platform}.
Implicit Types (code language : pystr) (w : World).

Lemma calls_app {Y} (l1 l2 : list (Event Y)) :
  calls (l1 ++ l2) = calls l1 ++ calls l2.
Proof. induction l1 as [|[] l1 IH]; simpl; congruence. Qed.

Lemma writes_app {Y} (l1 l2 : list (Event Y)) :
  writes (l1 ++ l2) = writes l1 ++ writes l2.
Proof.
  induction l1 as [|[? |? ? ?|? ?|? ?|?|? ? []] l1 IH]; simpl; congruence.
Qed.

Lemma yields_app {Y} (l1 l2 : list (Event Y)) :
  yields (l1 ++ l2) = yields l1 ++ yields l2.
Proof. induction l1 as [|[] l1 IH]; simpl; congruence. Qed.

Lemma calls_relay (l : list (Event pystr)) : calls (List.map relay l) = calls l.
Proof. induction l as [|[] l IH]; simpl; congruence. Qed.

Lemma writes_relay (l : list (Event pystr)) : writes (List.map relay l) = writes l.
Proof. induction l as [|[? |? ? ?|? ?|? ?|?|? ? []] l IH]; simpl; congruence. Qed.

Lemma yields_relay (l : list (Event pystr)) :
  yields (List.map relay l) = List.map (fun y => (y, None)) (yields l).
Proof. induction l as [|[] l IH]; simpl; congruence. Qed.

Lemma relay_no_path (l : list (Event pystr)) :
  Forall (fun y : pystr * option pystr => snd y = None) (yields (List.map relay l)).
Proof.
  rewrite yields_relay.
  induction (yields l) as [|y t IH]; constructor; [reflexivity|exact IH].
Qed.

Lemma documentation_path_not_temp (dt : datetime) :
  documentation_path dt <> py "temp".
Proof.
  unfold documentation_path. intros H.
  assert (H' : py "temp" ++ py "/" ++ (py "documentation_" ++ strftime_Ymd_HMS dt ++ py ".md")
               = py "temp" ++ []) by (rewrite app_nil_r; exact H).
  apply app_inv_head in H'. discriminate H'.
Qed.

(** Saving and offering the download, the tail of [generate]: the three
    ways it can fail, and what it leaves behind each time. *)
Lemma save_and_offer_run (doc : pystr) w :
  exec (save_documentation doc ≫= fun p => yield (doc, Some p)) w =
  match files (fs w) !! py "temp" with
  | Some _ =>
      mkRun [EvMkdir (py "temp") (Raise FileExistsError)] (Raise FileExistsError) w
  | None =>
      let '(dt, o) := clock_now (outside w) in
      let path := documentation_path dt in
      let made := {[py "temp"]} ∪ dirs (fs w) in
      if decide (path ∈ made) then
        mkRun [EvMkdir (py "temp") (Ok tt); EvNow dt;
               EvWrite path doc (Raise IsADirectoryError)]
              (Raise IsADirectoryError)
              (mkWorld _ o (mkFS made (files (fs w))))
      else if has_surrogate doc then
        mkRun [EvMkdir (py "temp") (Ok tt); EvNow dt;
               EvWrite path doc (Raise UnicodeEncodeError)]
              (Raise UnicodeEncodeError)
              (mkWorld _ o (mkFS made (<[path := []]> (files (fs w)))))
      else
        mkRun [EvMkdir (py "temp") (Ok tt); EvNow dt;
               EvWrite path doc (Ok tt); EvYield (doc, Some path)]
              (Ok tt)
              (mkWorld _ o (mkFS made (<[path := doc]> (files (fs w)))))
  end.
Proof.
  unfold save_documentation. cbn -[py app strftime_Ymd_HMS].
  destruct (files (fs w) !! py "temp"); [reflexivity|].
  cbn -[py app strftime_Ymd_HMS].
  destruct (clock_now (outside w)) as [dt o].
  cbn -[py app strftime_Ymd_HMS]. fold (documentation_path dt).
  destruct (decide (documentation_path dt ∈ {[py "temp"]} ∪ dirs (fs w)));
    [reflexivity|].
  destruct (has_surrogate doc); reflexivity.
Qed.

(** The same when nothing stands in the way. *)
Lemma save_and_offer_ok (doc : pystr) w dt o :
  files (fs w) !! py "temp" = None ->
  clock_now (outside w) = (dt, o) ->
  documentation_path dt ∉ dirs (fs w) ->
  has_surrogate doc = false ->
  exec (save_documentation doc ≫= fun p => yield (doc, Some p)) w =
  mkRun [EvMkdir (py "temp") (Ok tt); EvNow dt;
         EvWrite (documentation_path dt) doc (Ok tt);
         EvYield (doc, Some (documentation_path dt))]
        (Ok tt)
        (mkWorld _ o (mkFS ({[py "temp"]} ∪ dirs (fs w))
                           (<[documentation_path dt := doc]> (files (fs w))))).
Proof.
  intros Htemp Hclock Hdir Henc.
  rewrite save_and_offer_run, Htemp, Hclock. cbv zeta.
  destruct (decide (documentation_path dt ∈ {[py "temp"]} ∪ dirs (fs w))) as [Hin|_].
  - exfalso. apply elem_of_union in Hin as [Hin|Hin]; [|exact (Hdir Hin)].
    apply elem_of_singleton in Hin. exact (documentation_path_not_temp dt Hin).
  - rewrite Henc. reflexivity.
Qed.

(** [generate] on pasted code, in terms of the run of the pipeline it
    consumes. *)
Lemma generate_run code language w :
  truthy (strip code) = true ->
  exec (generate code None language) w =
  let s := exec (stream_pipeline code language) w in
  match result s with
  | Raise e => mkRun (List.map relay (log s)) (Raise e) (final s)
  | Ok _ =>
      let final_output := List.last (yields (log s)) [] in
      if truthy (strip final_output) then
        prepend (List.map relay (log s))
          (exec (save_documentation final_output
                 ≫= fun p => yield (final_output, Some p)) (final s))
      else mkRun (List.map relay (log s)) (Ok tt) (final s)
  end.
Proof.
  intros Hne. unfold generate.
  change (Ret code ≫= ?f) with (f code). cbv beta. rewrite Hne. cbv [negb].
  rewrite exec_bind, exec_relay_loop. cbv zeta. cbn [result log final].
  destruct (result (exec (stream_pipeline code language) w)); [|reflexivity].
  match goal with |- context [truthy ?x] => destruct (truthy x) end;
    [reflexivity|].
  unfold prepend. simpl. now rewrite app_nil_r.
Qed.

Lemma generate_no_code code language w :
  truthy (strip code) = false ->
  exec (generate code None language) w
  = mkRun [EvYield (PLEASE_PASTE_WARNING, None)] (Ok tt) w.
Proof.
  intros Hne. unfold generate.
  change (Ret code ≫= ?f) with (f code). cbv beta. now rewrite Hne.
Qed.

(** C4.  A remote call that raises ends everything: [run_pipeline] and
    [stream_pipeline] raise the same exception with the failed call as
    their last event (no retry, no later stage), and so does [generate],
    which leaves the file system as it was, writes nothing and offers no
    download. *)
Theorem inference_failure_propagates code language w a i e :
  In (a, i, Raise e) (calls (log (exec (run_pipeline code language) w))) ->
  let r := exec (run_pipeline code language) w in
  let s := exec (stream_pipeline code language) w in
  let g := exec (generate code None language) w in
  (result r = Raise e /\ last (log r) = Some (EvCall a i (Raise e)))
  /\ (result s = Raise e /\ last (log s) = Some (EvCall a i (Raise e)))
  /\ (result g = Raise e /\ last (log g) = Some (EvCall a i (Raise e))
      /\ fs (final g) = fs w /\ writes (log g) = []
      /\ Forall (fun y => snd y = None) (yields (log g))).
Proof.
  intros H. cbv zeta.
  destruct (truthy (strip code)) eqn:Hne.
  2: { exfalso. revert H. enter_pipeline Hne. intros []. }
  rewrite (generate_run code language w Hne). cbv zeta.
  revert H. enter_pipeline Hne.
  repeat run_stage; cbn -[py app]; intros H; split_in H.
  all: repeat split; try reflexivity; repeat constructor.
Qed.

(** C9.  When the last value of the streaming pipeline is white space
    only, [generate] persists nothing: the file system is left as it was,
    no file is written, and every pair it yields has no download path. *)
Theorem blank_output_never_persisted code language w doc :
  last (yields (log (exec (stream_pipeline code language) w))) = Some doc ->
  strip doc = [] ->
  let g := exec (generate code None language) w in
  fs (final g) = fs w /\ writes (log g) = []
  /\ Forall (fun y => snd y = None) (yields (log g)).
Proof.
  intros Hlast Hblank. cbv zeta.
  destruct (truthy (strip code)) eqn:Hne.
  2: { rewrite generate_no_code by exact Hne. repeat split. repeat constructor. }
  rewrite (generate_run code language w Hne). cbv zeta.
  destruct (stream_pipeline_fs code language w) as [Hfs Hwr].
  assert (Hrelay : Forall (fun y : pystr * option pystr => snd y = None)
            (yields (List.map relay (log (exec (stream_pipeline code language) w))))).
  { apply relay_no_path. }
  destruct (result (exec (stream_pipeline code language) w)).
  - rewrite (last_Some_default (A := pystr) _ doc (@nil N) Hlast).
    apply truthy_false in Hblank. rewrite Hblank. cbn [final log].
    rewrite writes_relay. auto.
  - cbn [final log]. rewrite writes_relay. auto.
Qed.

(** C5, as the code has it.  When the pipeline completes and its final
    document is not empty once trimmed and can be encoded (no lone
    surrogate), and when no regular file is named [temp] and no directory
    has the name of the file to write, [generate] makes sure the
    directory [temp] exists and writes exactly that document to
    [temp/documentation_<YYYYMMDD_HHMMSS>.md], stamped with the time read
    after the pipeline ended; this is the only write, and the path is
    offered with the document as the last value. *)
Theorem final_document_saved code language w doc dt o :
  strip code <> [] ->
  result (exec (stream_pipeline code language) w) = Ok tt ->
  last (yields (log (exec (stream_pipeline code language) w))) = Some doc ->
  strip doc <> [] ->
  has_surrogate doc = false ->
  clock_now (outside (final (exec (stream_pipeline code language) w))) = (dt, o) ->
  valid_datetime dt ->
  files (fs w) !! py "temp" = None ->
  documentation_path dt ∉ dirs (fs w) ->
  let g := exec (generate code None language) w in
  exists stamp,
    is_timestamp stamp = true
    /\ let path := py "temp/documentation_" ++ stamp ++ py ".md" in
       result g = Ok tt
       /\ files (fs (final g)) = <[path := doc]> (files (fs w))
       /\ dirs (fs (final g)) = {[py "temp"]} ∪ dirs (fs w)
       /\ writes (log g) = [(path, doc)]
       /\ last (yields (log g)) = Some (doc, Some path).
Proof.
  intros Hne Hok Hlast Hdoc Henc Hclock Hvalid Htemp Hdir. cbv zeta.
  apply truthy_true in Hne. apply truthy_true in Hdoc.
  destruct (stream_pipeline_fs code language w) as [Hfs Hwr].
  rewrite (generate_run code language w Hne). cbv zeta.
  rewrite Hok, (last_Some_default (A := pystr) _ doc (@nil N) Hlast), Hdoc.
  rewrite (save_and_offer_ok doc _ dt o); try assumption;
    [|rewrite Hfs; exact Htemp|rewrite Hfs; exact Hdir].
  exists (strftime_Ymd_HMS dt). split; [now apply strftime_shape|].
  cbn [prepend result final log fs files dirs]. rewrite Hfs.
  repeat split.
  - rewrite writes_app, writes_relay, Hwr. reflexivity.
  - rewrite yields_app. cbn [yields]. rewrite last_snoc. reflexivity.
Qed.

(** C10.  With an uploaded file, [generate] never looks at the pasted
    code: it reads the file and goes on exactly as it would on the text
    read, had it been pasted, or raises when the file cannot be read; the
    remote calls are those of the pipeline on the file's text.  Without a
    file, they are those of the pipeline on the pasted code. *)
Theorem uploaded_file_takes_precedence code_input name language w :
  (forall other,
     exec (generate code_input (Some name) language) w
     = exec (generate other (Some name) language) w)
  /\ match read_file (fs w) name with
     | Ok text =>
         exec (generate code_input (Some name) language) w
         = after (EvRead name (Ok text)) (exec (generate text None language) w)
         /\ calls (log (exec (generate code_input (Some name) language) w))
            = calls (log (exec (stream_pipeline text language) w))
     | Raise e =>
         exec (generate code_input (Some name) language) w
         = mkRun [EvRead name (Raise e)] (Raise e) w
     end
  /\ calls (log (exec (generate code_input None language) w))
     = calls (log (exec (stream_pipeline code_input language) w)).
Proof.
  assert (Hcalls : forall code,
    calls (log (exec (generate code None language) w))
    = calls (log (exec (stream_pipeline code language) w))).
  { intros code. destruct (truthy (strip code)) eqn:Hne.
    - rewrite (generate_run code language w Hne). cbv zeta.
      destruct (result (exec (stream_pipeline code language) w)).
      + match goal with
        | |- context [if truthy ?x then _ else _] => destruct (truthy x)
        end.
        * rewrite save_and_offer_run.
          destruct (files _ !! py "temp");
            [cbn [prepend log]; rewrite calls_app, calls_relay; apply app_nil_r|].
          destruct (clock_now _) as [dt o]. cbv zeta.
          destruct (decide _);
            [cbn [prepend log]; rewrite calls_app, calls_relay; apply app_nil_r|].
          destruct (has_surrogate _);
            cbn [prepend log]; rewrite calls_app, calls_relay; apply app_nil_r.
        * apply calls_relay.
      + apply calls_relay.
    - rewrite generate_no_code by exact Hne.
      unfold stream_pipeline. rewrite Hne. reflexivity. }
  split; [reflexivity|]. split; [|apply Hcalls].
  assert (Hread : exec (generate code_input (Some name) language) w =
    match read_file (fs w) name with
    | Ok text => after (EvRead name (Ok text)) (exec (generate text None language) w)
    | Raise e => mkRun [EvRead name (Raise e)] (Raise e) w
    end).
  { unfold generate, await.
    change (Do (read_text name) Ret ≫= ?f)
      with (Do (read_text name) (fun x => Ret x ≫= f)).
    cbn [exec handle]. destruct (read_file (fs w) name); reflexivity. }
  rewrite Hread. destruct (read_file (fs w) name) as [text|e]; [|reflexivity].
  split; [reflexivity|]. cbn [after log calls]. apply Hcalls.
Qed.

End Generate.

(** ** Runs of the samples *)

Lemma empty_code_short_circuits_witness :
  strip blank_code = []
  /\ exec (run_pipeline (P := scripted noon) blank_code python) healthy
     = mkRun [] (Ok NO_CODE_WARNING) healthy
  /\ yields (log (exec (stream_pipeline (P := scripted noon) blank_code python) healthy))
     = [NO_CODE_WARNING].
Proof.
  split; [reflexivity|].
  destruct (empty_code_short_circuits (P := scripted noon) blank_code python healthy)
    as (Hrun & _ & _ & _ & Hyields); [reflexivity|].
  split; [exact Hrun | exact Hyields].
Defined.

Lemma stream_pipeline_yields_four_witness :
  strip sample_code <> []
  /\ all_calls_succeed
       (log (exec (stream_pipeline (P := scripted noon) sample_code python) healthy)) = true
  /\ exists a3,
       yields (log (exec (stream_pipeline (P := scripted noon) sample_code python) healthy))
       = [STEP_1; STEP_2; STEP_3; a3].
Proof.
  assert (Hne : strip sample_code <> []) by (vm_compute; discriminate).
  split; [exact Hne|]. split; [reflexivity|].
  destruct (stream_pipeline_yields_four (P := scripted noon) sample_code python healthy
              Hne eq_refl)
    as (i1 & a1 & i2 & a2 & i3 & a3 & _ & Hyields & _).
  exists a3. exact Hyields.
Defined.

Lemma three_calls_in_order_witness :
  strip sample_code <> []
  /\ stage_failed code_analyst
       (log (exec (run_pipeline (P := scripted noon) sample_code python) healthy)) = false
  /\ stage_failed doc_writer
       (log (exec (run_pipeline (P := scripted noon) sample_code python) healthy)) = false
  /\ exists i1 a1 i2 a2 i3 o3,
       calls (log (exec (run_pipeline (P := scripted noon) sample_code python) healthy))
       = [(code_analyst, i1, Ok a1); (doc_writer, i2, Ok a2); (quality_reviewer, i3, o3)]
       /\ contains i2 a1 /\ contains i3 a2.
Proof.
  assert (Hne : strip sample_code <> []) by (vm_compute; discriminate).
  split; [exact Hne|]. split; [reflexivity|]. split; [reflexivity|].
  destruct (three_calls_in_order (P := scripted noon) sample_code python healthy
              Hne eq_refl eq_refl)
    as (i1 & a1 & i2 & a2 & i3 & o3 & Hrun & _ & H12 & H23).
  exists i1, a1, i2, a2, i3, o3. split; [exact Hrun|]. split; assumption.
Defined.

(** C1 as it is written fails when the service is down: on non-empty code
    either entry point makes one remote call, not three. *)
Lemma one_call_when_analyst_fails :
  strip sample_code <> []
  /\ calls (log (exec (run_pipeline (P := scripted noon) sample_code python) outage))
     = [(code_analyst, sample_analyst_input, Raise (RunnerError 0))]
  /\ calls (log (exec (stream_pipeline (P := scripted noon) sample_code python) outage))
     = [(code_analyst, sample_analyst_input, Raise (RunnerError 0))]
  /\ length (calls (log (exec (run_pipeline (P := scripted noon) sample_code python) outage)))
     <> 3%nat.
Proof.
  split; [vm_compute; discriminate|].
  split; [reflexivity|]. split; [reflexivity|].
  vm_compute. discriminate.
Defined.

Lemma code_reaches_later_stages_unchanged_witness :
  (In (doc_writer, sample_writer_input, Ok (py "draft"))
      (calls (log (exec (run_pipeline (P := scripted noon) sample_code python) healthy)))
   \/ In (doc_writer, sample_writer_input, Ok (py "draft"))
      (calls (log (exec (stream_pipeline (P := scripted noon) sample_code python) healthy))))
  /\ ends_with_code (code_marker doc_writer) sample_writer_input sample_code.
Proof.
  assert (H : In (doc_writer, sample_writer_input, Ok (py "draft"))
      (calls (log (exec (run_pipeline (P := scripted noon) sample_code python) healthy)))
   \/ In (doc_writer, sample_writer_input, Ok (py "draft"))
      (calls (log (exec (stream_pipeline (P := scripted noon) sample_code python) healthy)))).
  { left. right. left. reflexivity. }
  split; [exact H|].
  exact (code_reaches_later_stages_unchanged (P := scripted noon)
           sample_code python healthy _ _ _ H).
Defined.

Lemma inference_failure_propagates_witness :
  In (doc_writer, sample_writer_input, Raise (RunnerError 504))
     (calls (log (exec (run_pipeline (P := scripted noon) sample_code python) writer_down)))
  /\ result (exec (generate (P := scripted noon) sample_code None python) writer_down)
     = Raise (RunnerError 504)
  /\ fs (final (exec (generate (P := scripted noon) sample_code None python) writer_down))
     = fs writer_down.
Proof.
  assert (H : In (doc_writer, sample_writer_input, Raise (RunnerError 504))
     (calls (log (exec (run_pipeline (P := scripted noon) sample_code python) writer_down)))).
  { right. left. reflexivity. }
  split; [exact H|].
  destruct (inference_failure_propagates (P := scripted noon)
              sample_code python writer_down _ _ _ H)
    as (_ & _ & Hres & _ & Hfs & _).
  split; [exact Hres | exact Hfs].
Defined.

Lemma blank_output_never_persisted_witness :
  last (yields (log (exec (stream_pipeline (P := scripted noon) sample_code python)
                       blank_review))) = Some [32; 32; 10]
  /\ strip [32; 32; 10] = []
  /\ fs (final (exec (generate (P := scripted noon) sample_code None python) blank_review))
     = fs blank_review
  /\ writes (log (exec (generate (P := scripted noon) sample_code None python) blank_review))
     = [].
Proof.
  split; [reflexivity|]. split; [reflexivity|].
  destruct (blank_output_never_persisted (P := scripted noon)
              sample_code python blank_review [32; 32; 10] eq_refl eq_refl)
    as (Hfs & Hwrites & _).
  split; [exact Hfs | exact Hwrites].
Defined.

(** C5 as it is written fails when the Reviewer answers with white space
    only: the pipeline completes, [generate] completes, and no file is
    written. *)
Lemma blank_final_document_not_saved :
  strip sample_code <> []
  /\ result (exec (stream_pipeline (P := scripted noon) sample_code python) blank_review)
     = Ok tt
  /\ last (yields (log (exec (stream_pipeline (P := scripted noon) sample_code python)
                          blank_review))) = Some [32; 32; 10]
  /\ result (exec (generate (P := scripted noon) sample_code None python) blank_review)
     = Ok tt
  /\ writes (log (exec (generate (P := scripted noon) sample_code None python) blank_review))
     = []
  /\ files (fs (final (exec (generate (P := scripted noon) sample_code None python)
                         blank_review))) = ∅.
Proof.
  split; [vm_compute; discriminate|].
  repeat split; reflexivity.
Defined.

Lemma final_document_saved_witness :
  strip sample_code <> []
  /\ result (exec (stream_pipeline (P := scripted noon) sample_code python) healthy) = Ok tt
  /\ last (yields (log (exec (stream_pipeline (P := scripted noon) sample_code python)
                          healthy))) = Some (py "# add")
  /\ strip (py "# add") <> []
  /\ has_surrogate (py "# add") = false
  /\ valid_datetime noon
  /\ files (fs healthy) !! py "temp" = None
  /\ (documentation_path noon ∉ dirs (fs healthy))
  /\ exists stamp,
       is_timestamp stamp = true
       /\ files (fs (final (exec (generate (P := scripted noon) sample_code None python)
                              healthy)))
          = <[py "temp/documentation_" ++ stamp ++ py ".md" := py "# add"]> ∅.
Proof.
  assert (Hne : strip sample_code <> []) by (vm_compute; discriminate).
  assert (Hdoc : strip (py "# add") <> []) by (vm_compute; discriminate).
  assert (Hvalid : valid_datetime noon) by (unfold valid_datetime, noon; simpl; lia).
  assert (Htemp : files (fs healthy) !! py "temp" = None) by (vm_compute; reflexivity).
  assert (Hdir : documentation_path noon ∉ dirs (fs healthy))
    by (simpl; apply not_elem_of_empty).
  split; [exact Hne|]. split; [reflexivity|]. split; [reflexivity|].
  split; [exact Hdoc|]. split; [reflexivity|]. split; [exact Hvalid|].
  split; [exact Htemp|]. split; [exact Hdir|].
  destruct (final_document_saved (P := scripted noon) sample_code python healthy
              (py "# add") noon [] Hne eq_refl eq_refl Hdoc eq_refl eq_refl Hvalid
              Htemp Hdir)
    as (stamp & Hstamp & _ & Hfiles & _).
  exists stamp. split; [exact Hstamp | exact Hfiles].
Defined.

(** The other ways the save of C5 can miss.  A final document with a lone
    surrogate: the four values are yielded, then [generate] raises and
    the file is left empty. *)
Lemma unencodable_document_leaves_empty_file :
  result (exec (stream_pipeline (P := scripted noon) sample_code python) broken_review)
  = Ok tt
  /\ strip broken_document <> []
  /\ result (exec (generate (P := scripted noon) sample_code None python) broken_review)
     = Raise UnicodeEncodeError
  /\ yields (log (exec (generate (P := scripted noon) sample_code None python)
                    broken_review))
     = [(STEP_1, None); (STEP_2, None); (STEP_3, None); (broken_document, None)]
  /\ files (fs (final (exec (generate (P := scripted noon) sample_code None python)
                         broken_review))) !! documentation_path noon = Some [].
Proof.
  split; [reflexivity|]. split; [vm_compute; discriminate|].
  split; [vm_compute; reflexivity|]. split; [vm_compute; reflexivity|].
  vm_compute. reflexivity.
Qed.

(** A regular file named [temp]: [generate] raises at [mkdir] and writes
    nothing. *)
Lemma temp_taken_nothing_saved :
  result (exec (stream_pipeline (P := scripted noon) sample_code python) temp_taken)
  = Ok tt
  /\ result (exec (generate (P := scripted noon) sample_code None python) temp_taken)
     = Raise FileExistsError
  /\ fs (final (exec (generate (P := scripted noon) sample_code None python) temp_taken))
     = fs temp_taken.
Proof.
  split; [reflexivity|]. split; vm_compute; reflexivity.
Qed.

(** ** Configuration *)

(** C6, as the code has it.  When the environment (the [.env] file over
    the process environment) provides [OPENROUTER_API_KEY], loading the
    module succeeds; the client's API key is that value; its base URL is
    the constant [https://openrouter.ai/api/v1], whatever the environment
    held; and [MODEL] is the environment's [MODEL], or
    [openai/gpt-4o-mini] when that is unset. *)
Theorem configuration_sources (dotenv environ : gmap pystr pystr) (key : pystr) :
  (dotenv ∪ environ) !! Config.OPENROUTER_API_KEY = Some key ->
  exists s,
    Config.configure dotenv environ = Ok s
    /\ Config.api_key s = Some key
    /\ Config.base_url s = Some Config.OPENROUTER_URL
    /\ Config.MODEL s =
       match (dotenv ∪ environ) !! Config.MODEL_VAR with
       | Some m => m
       | None => Config.DEFAULT_MODEL
       end.
Proof.
  intros Hkey.
  unfold Config.configure, Config.load_dotenv_override, Config.getenv.
  rewrite Hkey. eexists. split; [reflexivity|].
  unfold Config.api_key, Config.base_url, Config.getenv_default.
  cbn [Config.environ_after Config.MODEL].
  assert (Hne1 : Config.OPENAI_BASE_URL <> Config.OPENAI_API_KEY)
    by (vm_compute; discriminate).
  assert (Hne2 : Config.OPENAI_BASE_URL <> Config.MODEL_VAR)
    by (vm_compute; discriminate).
  assert (Hne3 : Config.OPENAI_API_KEY <> Config.MODEL_VAR)
    by (vm_compute; discriminate).
  repeat split.
  - rewrite lookup_insert_ne by exact Hne1. apply lookup_insert_eq.
  - apply lookup_insert_eq.
  - rewrite lookup_insert_ne by exact Hne2.
    rewrite lookup_insert_ne by exact Hne3. reflexivity.
Qed.

Lemma configuration_sources_witness :
  ((∅ : gmap pystr pystr) ∪ local_environ) !! Config.OPENROUTER_API_KEY
  = Some (py "sk-or-1")
  /\ exists s,
       Config.configure ∅ local_environ = Ok s
       /\ Config.api_key s = Some (py "sk-or-1")
       /\ Config.base_url s = Some Config.OPENROUTER_URL
       /\ Config.MODEL s = Config.DEFAULT_MODEL.
Proof.
  assert (Hkey : ((∅ : gmap pystr pystr) ∪ local_environ) !! Config.OPENROUTER_API_KEY
                 = Some (py "sk-or-1")) by (vm_compute; reflexivity).
  split; [exact Hkey|].
  destruct (configuration_sources ∅ local_environ (py "sk-or-1") Hkey)
    as (s & Hs & Hk & Hu & Hm).
  exists s. repeat split; assumption.
Defined.

(** C6 as it is written fails for the base URL: the environment provides
    one, and the client is configured with another, the constant of the
    source. *)
Lemma base_url_not_from_environment :
  local_environ !! Config.OPENAI_BASE_URL = Some (py "http://localhost:8000/v1")
  /\ exists s,
       Config.configure ∅ local_environ = Ok s
       /\ Config.base_url s = Some (py "https://openrouter.ai/api/v1")
       /\ Config.base_url s <> local_environ !! Config.OPENAI_BASE_URL.
Proof.
  split; [vm_compute; reflexivity|].
  eexists. split; [vm_compute; reflexivity|].
  split; [vm_compute; reflexivity|].
  vm_compute. discriminate.
Defined.

(** * Further properties of the driver *)

Section Driver.
Context `{P : Platform}.
Implicit Types (code language : pystr) (w : World).

(** X1.  Either entry point makes no remote call exactly when every
    character of the code is white space (the empty string included). *)
Theorem idle_exactly_on_blank_code code language w :
  (calls (log (exec (run_pipeline code language) w)) = []
   <-> forallb isspace code = true)
  /\ (calls (log (exec (stream_pipeline code language) w)) = []
      <-> forallb isspace code = true).
Proof.
  rewrite <- strip_nil, <- truthy_false.
  destruct (truthy (strip code)) eqn:Hne; enter_pipeline Hne.
  - repeat run_stage; split; split; discriminate.
  - split; split; reflexivity.
Qed.

(** X2.  In every run, failed or not, the agents called are the first
    few of Analyst, Writer, Reviewer, in that order and each at most
    once, and every call before the last one succeeded. *)
Theorem calls_are_a_prefix_of_the_stages code language w :
  let r := exec (run_pipeline code language) w in
  let s := exec (stream_pipeline code language) w in
  (exists n, agents_called (log r) = firstn n STAGES
             /\ agents_called (log s) = firstn n STAGES)
  /\ forallb (fun c => succeeded (snd c)) (removelast (calls (log r))) = true
  /\ forallb (fun c => succeeded (snd c)) (removelast (calls (log s))) = true.
Proof.
  cbv zeta. unfold agents_called.
  destruct (truthy (strip code)) eqn:Hne; enter_pipeline Hne.
  - repeat run_stage.
    all: split; [|split; reflexivity].
    + exists 3%nat. split; reflexivity.
    + exists 3%nat. split; reflexivity.
    + exists 2%nat. split; reflexivity.
    + exists 1%nat. split; reflexivity.
  - split; [|split; reflexivity]. exists 0%nat. split; reflexivity.
Qed.
(** X3.  A run of the driver raises exactly when one of its remote calls
    raised: the driver has no failure of its own. *)
Theorem driver_fails_only_with_a_call code language w :
  succeeded (result (exec (run_pipeline code language) w))
  = all_calls_succeed (log (exec (run_pipeline code language) w))
  /\ succeeded (result (exec (stream_pipeline code language) w))
     = all_calls_succeed (log (exec (stream_pipeline code language) w)).
Proof.
  unfold all_calls_succeed.
  destruct (truthy (strip code)) eqn:Hne; enter_pipeline Hne;
    repeat run_stage; split; reflexivity.
Qed.

(** X4.  On code that is not blank, [stream_pipeline] has yielded one
    progress string per call it made, in order, and after them the
    Reviewer's answer when there is one; so when a stage fails, the last
    value shown is that stage's progress string. *)
Theorem progress_string_per_call code language w :
  strip code <> [] ->
  let s := exec (stream_pipeline code language) w in
  yields (log s)
  = firstn (length (calls (log s))) PROGRESS
    ++ (if succeeded (result s) then last_answer (log s) else [])
  /\ (1 <= length (calls (log s)) <= 3)%nat
  /\ match result s with
     | Ok _ => last (yields (log s)) = head (last_answer (log s))
     | Raise _ =>
         last (yields (log s)) = nth_error PROGRESS (length (calls (log s)) - 1)
     end.
Proof.
  intros Hne. apply truthy_true in Hne. cbv zeta. unfold last_answer.
  enter_pipeline Hne. repeat run_stage.
  all: split; [reflexivity|]; split; [simpl; lia|reflexivity].
Qed.

(** X5.  Neither entry point reads or writes a file or reads the clock:
    their logs hold remote calls and yields only, and the file system
    after the run is the one before. *)
Theorem driver_leaves_files_alone code language w :
  let r := exec (run_pipeline code language) w in
  let s := exec (stream_pipeline code language) w in
  forallb call_or_yield (log r) = true /\ fs (final r) = fs w
  /\ forallb call_or_yield (log s) = true /\ fs (final s) = fs w.
Proof.
  cbv zeta.
  destruct (truthy (strip code)) eqn:Hne; enter_pipeline Hne;
    repeat run_stage; repeat split; reflexivity.
Qed.

End Driver.

(** * Further properties of the handler and of saving *)

Section Handler.
Context `{P : Platform}.
Implicit Types (code language : pystr) (w : World).

(** X6.  When the submitted text (the uploaded file's if there is a file,
    the pasted code otherwise) is blank, [generate] yields its own warning
    once, with no download path, calls no agent and changes nothing; with
    a blank file this holds even if code was pasted. *)
Theorem blank_submission_warns code_input file_input language w text :
  match file_input with
  | Some name => files (fs w) !! name = Some text
  | None => code_input = text
  end ->
  strip text = [] ->
  let g := exec (generate code_input file_input language) w in
  result g = Ok tt
  /\ yields (log g) = [(PLEASE_PASTE_WARNING, None)]
  /\ calls (log g) = []
  /\ final g = w.
Proof.
  intros Hsub Hblank. apply truthy_false in Hblank. cbv zeta.
  destruct file_input as [name|].
  - unfold generate, await.
    change (Do (read_text name) Ret ≫= ?f)
      with (Do (read_text name) (fun x => Ret x ≫= f)).
    cbn [exec handle]. unfold read_file. rewrite Hsub.
    change (Ret ?t ≫= ?f) with (f t). cbv beta.
    assert (Hread : truthy (strip (universal_newlines text)) = false).
    { apply truthy_false, strip_nil, universal_newlines_blank, strip_nil,
        truthy_false, Hblank. }
    rewrite Hread. repeat split.
  - subst code_input. rewrite generate_no_code by exact Hblank. repeat split.
Qed.

(** X7.  On a run that succeeds with a document that is not blank and can
    be encoded, when no regular file is named [temp] and no directory has
    the name of the file to write, [generate] yields five pairs: the
    three progress strings and the document without a path, then the
    document again with the path of the saved file. *)
Theorem generate_yields_document_twice code language w doc dt o :
  strip code <> [] ->
  result (exec (stream_pipeline code language) w) = Ok tt ->
  last (yields (log (exec (stream_pipeline code language) w))) = Some doc ->
  strip doc <> [] ->
  has_surrogate doc = false ->
  clock_now (outside (final (exec (stream_pipeline code language) w))) = (dt, o) ->
  files (fs w) !! py "temp" = None ->
  documentation_path dt ∉ dirs (fs w) ->
  yields (log (exec (generate code None language) w))
  = [(STEP_1, None); (STEP_2, None); (STEP_3, None); (doc, None);
     (doc, Some (documentation_path dt))].
Proof.
  intros Hne Hok Hlast Hdoc Henc Hclock Htemp Hdir.
  apply truthy_true in Hne. apply truthy_true in Hdoc.
  destruct (stream_pipeline_fs code language w) as [Hfs _].
  rewrite (generate_run code language w Hne). cbv zeta.
  rewrite Hok, (last_Some_default (A := pystr) _ doc (@nil N) Hlast), Hdoc.
  rewrite (save_and_offer_ok doc _ dt o); try assumption;
    [|rewrite Hfs; exact Htemp|rewrite Hfs; exact Hdir].
  cbn [prepend log]. rewrite yields_app, yields_relay. cbn [yields].
  revert Hok Hlast. clear Hclock Hfs. enter_pipeline Hne.
  repeat run_stage; intros Hok Hlast; try discriminate Hok.
  injection Hlast as ->. reflexivity.
Qed.

(** X8.  Whatever path [generate] offers for download holds, in the file
    system it leaves, exactly the text offered with it. *)
Theorem offered_path_holds_the_text code language w text path :
  In (text, Some path) (yields (log (exec (generate code None language) w))) ->
  files (fs (final (exec (generate code None language) w))) !! path = Some text.
Proof.
  assert (Hrelay : forall l : list (Event pystr),
            ~ In (text, Some path) (yields (List.map relay l))).
  { intros l Hin. pose proof (relay_no_path l) as Hall.
    rewrite List.Forall_forall in Hall. specialize (Hall _ Hin). discriminate Hall. }
  assert (Hquiet : forall (l : list (Event pystr)) l',
            yields l' = [] ->
            ~ In (text, Some path) (yields (List.map relay l ++ l'))).
  { intros l l' Hl' Hin. rewrite yields_app, Hl', app_nil_r in Hin.
    exact (Hrelay _ Hin). }
  destruct (truthy (strip code)) eqn:Hne.
  2: { rewrite generate_no_code by exact Hne. cbn [log yields].
       intros [H|[]]. discriminate H. }
  rewrite (generate_run code language w Hne). cbv zeta.
  destruct (result (exec (stream_pipeline code language) w)).
  2: { cbn [log]. intros H. destruct (Hrelay _ H). }
  match goal with
  | |- context [if truthy ?x then _ else _] => destruct (truthy x)
  end.
  2: { cbn [log]. intros H. destruct (Hrelay _ H). }
  rewrite save_and_offer_run.
  destruct (files _ !! py "temp").
  { cbn [prepend log]. intros H. exfalso. revert H. apply Hquiet. reflexivity. }
  destruct (clock_now _) as [dt o]. cbv zeta.
  destruct (decide _).
  { cbn [prepend log]. intros H. exfalso. revert H. apply Hquiet. reflexivity. }
  destruct (has_surrogate _).
  { cbn [prepend log]. intros H. exfalso. revert H. apply Hquiet. reflexivity. }
  cbn [prepend log final fs files]. rewrite yields_app. cbn [yields].
  intros H. apply in_app_or in H as [H|[H|[]]]; [destruct (Hrelay _ H)|].
  injection H as <- <-. apply lookup_insert_eq.
Qed.

(** X9.  [generate] changes no file but the one it saves: any path that
    is not a [temp/documentation_....md] path holds after the run what it
    held before, and the only directory it may add is [temp]. *)
Theorem generate_touches_only_its_file code language w p :
  (forall dt, p <> documentation_path dt) ->
  let g := exec (generate code None language) w in
  files (fs (final g)) !! p = files (fs w) !! p
  /\ dirs (fs w) ⊆ dirs (fs (final g))
  /\ dirs (fs (final g)) ⊆ {[py "temp"]} ∪ dirs (fs w).
Proof.
  intros Hp. cbv zeta.
  destruct (stream_pipeline_fs code language w) as [Hfs _].
  destruct (truthy (strip code)) eqn:Hne.
  2: { rewrite generate_no_code by exact Hne. cbn [final].
       split; [reflexivity|]. split; set_solver. }
  rewrite (generate_run code language w Hne). cbv zeta.
  destruct (result (exec (stream_pipeline code language) w)).
  2: { cbn [final]. rewrite Hfs. split; [reflexivity|]. split; set_solver. }
  match goal with
  | |- context [if truthy ?x then _ else _] => destruct (truthy x)
  end.
  2: { cbn [final]. rewrite Hfs. split; [reflexivity|]. split; set_solver. }
  rewrite save_and_offer_run.
  destruct (files _ !! py "temp").
  { cbn [prepend final]. rewrite Hfs. split; [reflexivity|]. split; set_solver. }
  destruct (clock_now _) as [dt o]. cbv zeta.
  assert (Hne' : documentation_path dt <> p)
    by (intros Heq; exact (Hp dt (eq_sym Heq))).
  destruct (decide _) as [Hin|Hout].
  { cbn [prepend final fs files dirs]. rewrite Hfs. clear Hin.
    split; [reflexivity|]. split; set_solver. }
  clear Hout.
  destruct (has_surrogate _); cbn [prepend final fs files dirs]; rewrite Hfs.
  all: split; [apply lookup_insert_ne; exact Hne'|split; set_solver].
Qed.

End Handler.

(** * File names and time *)

Lemma digit_inj (a b : N) : digit a = digit b -> a = b.
Proof. unfold digit. lia. Qed.

Lemma tens_units (n m : N) : n / 10 = m / 10 -> n mod 10 = m mod 10 -> n = m.
Proof.
  intros Hd Hm. rewrite (N.div_mod n 10), (N.div_mod m 10) by discriminate.
  now rewrite Hd, Hm.
Qed.

Lemma pad2_inj (n m : N) : pad2 n = pad2 m -> n = m.
Proof.
  unfold pad2. intros H. injection H as Hd Hm.
  apply tens_units; now apply digit_inj.
Qed.

Lemma pad4_inj (n m : N) : pad4 n = pad4 m -> n = m.
Proof.
  unfold pad4. intros H. injection H as H3 H2 H1 H0.
  apply digit_inj in H3, H2, H1, H0.
  assert (E100 : n / 100 = m / 100).
  { apply tens_units; [|exact H2].
    rewrite !N.Div0.div_div. exact H3. }
  assert (E10 : n / 10 = m / 10).
  { apply tens_units; [|exact H1].
    rewrite !N.Div0.div_div. exact E100. }
  apply tens_units; assumption.
Qed.

Lemma strftime_inj (dt1 dt2 : datetime) :
  strftime_Ymd_HMS dt1 = strftime_Ymd_HMS dt2 -> same_second dt1 dt2.
Proof.
  destruct dt1 as [y1 mo1 d1 h1 mi1 s1 us1 f1], dt2 as [y2 mo2 d2 h2 mi2 s2 us2 f2].
  unfold strftime_Ymd_HMS, same_second.
  cbn [year month day hour minute second].
  intros H.
  assert (Hy : pad4 y1 = pad4 y2 /\ pad2 mo1 = pad2 mo2 /\ pad2 d1 = pad2 d2
               /\ pad2 h1 = pad2 h2 /\ pad2 mi1 = pad2 mi2 /\ pad2 s1 = pad2 s2).
  { unfold pad4, pad2, py in *. cbn [app List.map list_ascii_of_string] in H.
    injection H as ? ? ? ? ? ? ? ? ? ? ? ? ? ?.
    repeat split; congruence. }
  destruct Hy as (Hy & Hmo & Hd & Hh & Hmi & Hs).
  apply pad4_inj in Hy. apply pad2_inj in Hmo, Hd, Hh, Hmi, Hs.
  repeat split; assumption.
Qed.

Lemma same_second_same_path (dt1 dt2 : datetime) :
  same_second dt1 dt2 -> documentation_path dt1 = documentation_path dt2.
Proof.
  intros (Hy & Hmo & Hd & Hh & Hmi & Hs).
  unfold documentation_path, strftime_Ymd_HMS.
  now rewrite Hy, Hmo, Hd, Hh, Hmi, Hs.
Qed.

Lemma other_second_other_path (dt1 dt2 : datetime) :
  ~ same_second dt1 dt2 -> documentation_path dt1 <> documentation_path dt2.
Proof.
  intros Hne Heq. apply Hne. apply strftime_inj.
  unfold documentation_path in Heq.
  apply app_inv_head in Heq. apply app_inv_head in Heq.
  apply app_inv_head in Heq. apply app_inv_tail in Heq. exact Heq.
Qed.

Section Saving.
Context `{P : Platform}.

(** One save that nothing hinders. *)
Lemma save_run_ok {Y} (doc : pystr) (w : World) dt o :
  files (fs w) !! py "temp" = None ->
  clock_now (outside w) = (dt, o) ->
  documentation_path dt ∉ dirs (fs w) ->
  has_surrogate doc = false ->
  exec (save_documentation (Y := Y) doc) w =
  mkRun [EvMkdir (py "temp") (Ok tt); EvNow dt;
         EvWrite (documentation_path dt) doc (Ok tt)]
        (Ok (documentation_path dt))
        (mkWorld _ o (mkFS ({[py "temp"]} ∪ dirs (fs w))
                           (<[documentation_path dt := doc]> (files (fs w))))).
Proof.
  intros Htemp Hclock Hdir Henc.
  unfold save_documentation. cbn -[py app strftime_Ymd_HMS].
  rewrite Htemp. cbn -[py app strftime_Ymd_HMS]. rewrite Hclock.
  cbn -[py app strftime_Ymd_HMS]. fold (documentation_path dt).
  destruct (decide (documentation_path dt ∈ {[py "temp"]} ∪ dirs (fs w))) as [Hin|_].
  - exfalso. apply elem_of_union in Hin as [Hin|Hin]; [|exact (Hdir Hin)].
    apply elem_of_singleton in Hin. exact (documentation_path_not_temp dt Hin).
  - rewrite Henc. reflexivity.
Qed.

(** Two saves that nothing hinders, whatever the two readings. *)
Lemma save_twice_run (doc1 doc2 : pystr) (w : World) dt1 dt2 o1 o2 :
  clock_now (outside w) = (dt1, o1) ->
  clock_now o1 = (dt2, o2) ->
  has_surrogate doc1 = false -> has_surrogate doc2 = false ->
  files (fs w) !! py "temp" = None ->
  documentation_path dt1 ∉ dirs (fs w) ->
  documentation_path dt2 ∉ dirs (fs w) ->
  let r := exec (save_twice (Y := Empty_set) doc1 doc2) w in
  result r = Ok (documentation_path dt1, documentation_path dt2)
  /\ files (fs (final r))
     = <[documentation_path dt2 := doc2]>
         (<[documentation_path dt1 := doc1]> (files (fs w)))
  /\ writes (log r)
     = [(documentation_path dt1, doc1); (documentation_path dt2, doc2)].
Proof.
  intros H1 H2 He1 He2 Htemp Hd1 Hd2. cbv zeta. unfold save_twice.
  rewrite exec_bind, (save_run_ok doc1 w dt1 o1 Htemp H1 Hd1 He1).
  cbn [result log final]. rewrite exec_bind.
  rewrite (save_run_ok doc2 _ dt2 o2); cbn [outside fs files dirs];
    [|rewrite lookup_insert_ne by apply documentation_path_not_temp; exact Htemp
     |exact H2
     |intros Hin; apply elem_of_union in Hin as [Hin|Hin];
      [apply elem_of_singleton in Hin; exact (documentation_path_not_temp dt2 Hin)
      |exact (Hd2 Hin)]
     |exact He2].
  cbn [result log final prepend exec fs files]. repeat split.
Qed.

(** X10.  Two documents saved at clock readings that differ in a printed
    field (year to second) go to two different files and both are kept.
    The readings are local wall-clock values. *)
Theorem other_second_keeps_both (doc1 doc2 : pystr) (w : World) dt1 dt2 o1 o2 :
  clock_now (outside w) = (dt1, o1) ->
  clock_now o1 = (dt2, o2) ->
  valid_datetime dt1 -> valid_datetime dt2 ->
  ~ same_second dt1 dt2 ->
  has_surrogate doc1 = false -> has_surrogate doc2 = false ->
  files (fs w) !! py "temp" = None ->
  documentation_path dt1 ∉ dirs (fs w) ->
  documentation_path dt2 ∉ dirs (fs w) ->
  let r := exec (save_twice (Y := Empty_set) doc1 doc2) w in
  result r = Ok (documentation_path dt1, documentation_path dt2)
  /\ documentation_path dt1 <> documentation_path dt2
  /\ files (fs (final r)) !! documentation_path dt1 = Some doc1
  /\ files (fs (final r)) !! documentation_path dt2 = Some doc2.
Proof.
  intros H1 H2 _ _ Hother He1 He2 Htemp Hd1 Hd2.
  destruct (save_twice_run doc1 doc2 w dt1 dt2 o1 o2 H1 H2 He1 He2 Htemp Hd1 Hd2)
    as (Hres & Hfiles & _).
  cbv zeta. rewrite Hres, Hfiles.
  pose proof (other_second_other_path dt1 dt2 Hother) as Hpath.
  repeat split; [exact Hpath| |apply lookup_insert_eq].
  rewrite lookup_insert_ne by (intros E; exact (Hpath (eq_sym E))).
  apply lookup_insert_eq.
Qed.

(** X11.  Two documents saved at clock readings within the same second
    (whatever their microseconds), when both can be encoded and nothing
    hinders the save, go to the same path: the second replaces the first,
    which is lost. *)
Theorem same_second_save_overwrites (doc1 doc2 : pystr) (w : World) dt1 dt2 o1 o2 :
  clock_now (outside w) = (dt1, o1) ->
  clock_now o1 = (dt2, o2) ->
  same_second dt1 dt2 ->
  has_surrogate doc1 = false -> has_surrogate doc2 = false ->
  files (fs w) !! py "temp" = None ->
  documentation_path dt1 ∉ dirs (fs w) ->
  let r := exec (save_twice (Y := Empty_set) doc1 doc2) w in
  result r = Ok (documentation_path dt1, documentation_path dt1)
  /\ files (fs (final r)) = <[documentation_path dt1 := doc2]> (files (fs w))
  /\ writes (log r) = [(documentation_path dt1, doc1); (documentation_path dt1, doc2)].
Proof.
  intros H1 H2 Hsame He1 He2 Htemp Hd1.
  pose proof (same_second_same_path dt1 dt2 Hsame) as Hpath.
  assert (Hd2 : documentation_path dt2 ∉ dirs (fs w)) by (rewrite <- Hpath; exact Hd1).
  destruct (save_twice_run doc1 doc2 w dt1 dt2 o1 o2 H1 H2 He1 He2 Htemp Hd1 Hd2)
    as (Hres & Hfiles & Hwrites).
  cbv zeta. rewrite Hres, Hfiles, Hwrites, <- Hpath.
  repeat split. apply insert_insert_eq.
Qed.

End Saving.

(** * Further properties of the configuration *)

Section Configuration.
Import Config.
Implicit Types (dotenv environ : gmap pystr pystr).

Lemma config_names_differ :
  OPENAI_BASE_URL <> OPENAI_API_KEY /\ OPENAI_BASE_URL <> MODEL_VAR
  /\ OPENAI_API_KEY <> MODEL_VAR /\ OPENAI_API_KEY <> OPENROUTER_API_KEY
  /\ OPENAI_BASE_URL <> OPENROUTER_API_KEY.
Proof. repeat split; vm_compute; discriminate. Qed.

(** What [configure] computes once the key is there. *)
Lemma configure_with_key dotenv environ key :
  (dotenv ∪ environ) !! OPENROUTER_API_KEY = Some key ->
  configure dotenv environ =
  Ok (mkSettings
        (<[OPENAI_BASE_URL := OPENROUTER_URL]>
           (<[OPENAI_API_KEY := key]> (dotenv ∪ environ)))
        (match (dotenv ∪ environ) !! MODEL_VAR with
         | Some m => m
         | None => DEFAULT_MODEL
         end)).
Proof.
  intros Hkey. destruct config_names_differ as (_ & H2 & H3 & _).
  unfold configure, load_dotenv_override, getenv, getenv_default.
  rewrite Hkey. do 2 f_equal.
  rewrite lookup_insert_ne by exact H2.
  rewrite lookup_insert_ne by exact H3. reflexivity.
Qed.

(** X12.  Loading the module fails, with [TypeError], exactly when
    neither the [.env] file nor the process environment provides
    [OPENROUTER_API_KEY]. *)
Theorem configure_fails_without_key dotenv environ :
  configure dotenv environ = Raise TypeError
  <-> dotenv !! OPENROUTER_API_KEY = None /\ environ !! OPENROUTER_API_KEY = None.
Proof.
  rewrite <- lookup_union_None.
  destruct ((dotenv ∪ environ) !! OPENROUTER_API_KEY) as [key|] eqn:Hkey.
  - rewrite (configure_with_key _ _ _ Hkey). split; discriminate.
  - unfold configure, load_dotenv_override, getenv. rewrite Hkey.
    split; reflexivity.
Qed.

(** X13.  What the [.env] file sets wins over the process environment:
    its key is the client's API key and its [MODEL] is the model,
    whatever the process environment holds. *)
Theorem dotenv_wins dotenv environ key model :
  dotenv !! OPENROUTER_API_KEY = Some key ->
  dotenv !! MODEL_VAR = Some model ->
  exists s, configure dotenv environ = Ok s
            /\ api_key s = Some key /\ MODEL s = model.
Proof.
  intros Hkey Hmodel. destruct config_names_differ as (H1 & _).
  assert (Hk : (dotenv ∪ environ) !! OPENROUTER_API_KEY = Some key)
    by (apply lookup_union_Some_l; exact Hkey).
  assert (Hm : (dotenv ∪ environ) !! MODEL_VAR = Some model)
    by (apply lookup_union_Some_l; exact Hmodel).
  rewrite (configure_with_key _ _ _ Hk), Hm. eexists. split; [reflexivity|].
  unfold api_key. cbn [environ_after MODEL]. split; [|reflexivity].
  rewrite lookup_insert_ne by exact H1. apply lookup_insert_eq.
Qed.

(** X14.  Loading the module sets [OPENAI_API_KEY] and [OPENAI_BASE_URL]
    and leaves every other variable as the [.env] file and the process
    environment gave it. *)
Theorem configure_keeps_other_variables dotenv environ s name :
  configure dotenv environ = Ok s ->
  name <> OPENAI_API_KEY -> name <> OPENAI_BASE_URL ->
  environ_after s !! name = (dotenv ∪ environ) !! name.
Proof.
  intros Hs Hn1 Hn2.
  destruct ((dotenv ∪ environ) !! OPENROUTER_API_KEY) as [key|] eqn:Hkey.
  - rewrite (configure_with_key _ _ _ Hkey) in Hs. injection Hs as <-.
    cbn [environ_after].
    rewrite lookup_insert_ne by (intros E; exact (Hn2 (eq_sym E))).
    rewrite lookup_insert_ne by (intros E; exact (Hn1 (eq_sym E))).
    reflexivity.
  - unfold configure, load_dotenv_override, getenv in Hs. rewrite Hkey in Hs.
    discriminate Hs.
Qed.

(** Loading again with the same values of the [.env] file. *)
Lemma configure_again_same_values dotenv environ s :
  configure dotenv environ = Ok s ->
  configure dotenv (environ_after s) = Ok s.
Proof.
  intros Hs. destruct config_names_differ as (H1 & H2 & H3 & H4 & H5).
  destruct ((dotenv ∪ environ) !! OPENROUTER_API_KEY) as [key|] eqn:Hkey.
  2: { unfold configure, load_dotenv_override, getenv in Hs. rewrite Hkey in Hs.
       discriminate Hs. }
  rewrite (configure_with_key _ _ _ Hkey) in Hs. injection Hs as <-.
  cbn [environ_after].
  set (env2 := <[OPENAI_BASE_URL := OPENROUTER_URL]>
                 (<[OPENAI_API_KEY := key]> (dotenv ∪ environ))).
  assert (Hother : forall name, name <> OPENAI_API_KEY -> name <> OPENAI_BASE_URL ->
            (dotenv ∪ env2) !! name = (dotenv ∪ environ) !! name).
  { intros name Hn1 Hn2. rewrite !lookup_union. unfold env2.
    rewrite lookup_insert_ne by (intros E; exact (Hn2 (eq_sym E))).
    rewrite lookup_insert_ne by (intros E; exact (Hn1 (eq_sym E))).
    rewrite lookup_union.
    destruct (dotenv !! name), (environ !! name); reflexivity. }
  assert (Hkey' : (dotenv ∪ env2) !! OPENROUTER_API_KEY = Some key).
  { rewrite Hother; [exact Hkey| |]; intros E; [exact (H4 (eq_sym E))|exact (H5 (eq_sym E))]. }
  rewrite (configure_with_key _ _ _ Hkey').
  rewrite (Hother MODEL_VAR)
    by (intros E; first [exact (H3 (eq_sym E)) | exact (H2 (eq_sym E))]).
  do 2 f_equal. apply map_eq. intros name.
  destruct (decide (name = OPENAI_BASE_URL)) as [->|Hn2].
  { unfold env2. now rewrite !lookup_insert_eq. }
  rewrite lookup_insert_ne by (intros E; exact (Hn2 (eq_sym E))).
  destruct (decide (name = OPENAI_API_KEY)) as [->|Hn1].
  { unfold env2. rewrite lookup_insert_eq.
    rewrite lookup_insert_ne by exact H1. now rewrite lookup_insert_eq. }
  rewrite lookup_insert_ne by (intros E; exact (Hn1 (eq_sym E))).
  rewrite (Hother name Hn1 Hn2). unfold env2.
  rewrite lookup_insert_ne by (intros E; exact (Hn2 (eq_sym E))).
  rewrite lookup_insert_ne by (intros E; exact (Hn1 (eq_sym E))).
  reflexivity.
Qed.

(** X15.  Loading the module again, in the environment the first load
    left, gives the same settings provided the [.env] file resolves
    there to the values it resolved to the first time (as a file without
    [${...}] references does). *)
Theorem configure_again_changes_nothing
    (env_file : gmap pystr pystr -> gmap pystr pystr) environ s :
  load_with env_file environ = Ok s ->
  env_file (environ_after s) = env_file environ ->
  load_with env_file (environ_after s) = Ok s.
Proof.
  unfold load_with. intros Hs Hsame. rewrite Hsame.
  exact (configure_again_same_values _ _ _ Hs).
Qed.

(** Without that proviso the second load can differ: with the line
    [MODEL=${OPENAI_BASE_URL}] the model is empty after the first load
    and the URL after the second. *)
Lemma reload_can_differ :
  exists s1 s2,
    load_with referring_env_file ∅ = Ok s1
    /\ load_with referring_env_file (environ_after s1) = Ok s2
    /\ MODEL s1 = [] /\ MODEL s2 = OPENROUTER_URL.
Proof.
  eexists. eexists. split; [vm_compute; reflexivity|].
  split; [vm_compute; reflexivity|]. split; vm_compute; reflexivity.
Qed.

End Configuration.

Section Flow.
Context `{P : Platform}.

(** X16.  The Reviewer's prompt is made of the Writer's draft, the
    language and the code only: two runs on the same code and language in
    which the Writer returned the same draft send the Reviewer the same
    prompt, however the Analyst's answers differed. *)
Theorem reviewer_sees_only_the_draft code language (w1 w2 : World)
    i2 i2' draft i3 i3' o3 o3' :
  In (doc_writer, i2, Ok draft)
     (calls (log (exec (run_pipeline code language) w1))) ->
  In (doc_writer, i2', Ok draft)
     (calls (log (exec (run_pipeline code language) w2))) ->
  In (quality_reviewer, i3, o3)
     (calls (log (exec (run_pipeline code language) w1))) ->
  In (quality_reviewer, i3', o3')
     (calls (log (exec (run_pipeline code language) w2))) ->
  i3 = i3'.
Proof.
  destruct (truthy (strip code)) eqn:Hne; enter_pipeline Hne; [|intros []].
  repeat run_stage; intros Ha Hb Hc Hd.
  all: split_in Ha; split_in Hb; split_in Hc; split_in Hd.
  all: try discriminate; try reflexivity.
Qed.
End Flow.

(** ** Runs of the samples, continued *)

Lemma progress_string_per_call_witness :
  strip sample_code <> []
  /\ yields (log (exec (stream_pipeline (P := scripted noon) sample_code python)
                    writer_down)) = [STEP_1; STEP_2].
Proof.
  assert (Hne : strip sample_code <> []) by (vm_compute; discriminate).
  split; [exact Hne|].
  destruct (progress_string_per_call (P := scripted noon) sample_code python
              writer_down Hne) as (Hyields & _).
  rewrite Hyields. reflexivity.
Defined.

Lemma blank_submission_warns_witness :
  files (fs with_upload) !! py "/tmp/gradio/blank.py" = Some [10; 32; 32; 10]
  /\ strip [10; 32; 32; 10] = []
  /\ yields (log (exec (generate (P := scripted noon) sample_code
                          (Some (py "/tmp/gradio/blank.py")) python) with_upload))
     = [(PLEASE_PASTE_WARNING, None)].
Proof.
  assert (Hfile : files (fs with_upload) !! py "/tmp/gradio/blank.py"
                  = Some [10; 32; 32; 10]) by (vm_compute; reflexivity).
  split; [exact Hfile|]. split; [reflexivity|].
  destruct (blank_submission_warns (P := scripted noon) sample_code
              (Some (py "/tmp/gradio/blank.py")) python with_upload
              [10; 32; 32; 10] Hfile eq_refl) as (_ & Hyields & _).
  exact Hyields.
Defined.

Lemma generate_yields_document_twice_witness :
  strip sample_code <> []
  /\ result (exec (stream_pipeline (P := scripted noon) sample_code python) healthy) = Ok tt
  /\ strip (py "# add") <> []
  /\ has_surrogate (py "# add") = false
  /\ files (fs healthy) !! py "temp" = None
  /\ (documentation_path noon ∉ dirs (fs healthy))
  /\ yields (log (exec (generate (P := scripted noon) sample_code None python) healthy))
     = [(STEP_1, None); (STEP_2, None); (STEP_3, None); (py "# add", None);
        (py "# add", Some (documentation_path noon))].
Proof.
  assert (Hne : strip sample_code <> []) by (vm_compute; discriminate).
  assert (Hdoc : strip (py "# add") <> []) by (vm_compute; discriminate).
  assert (Htemp : files (fs healthy) !! py "temp" = None) by (vm_compute; reflexivity).
  assert (Hdir : documentation_path noon ∉ dirs (fs healthy))
    by (simpl; apply not_elem_of_empty).
  split; [exact Hne|]. split; [reflexivity|]. split; [exact Hdoc|].
  split; [reflexivity|]. split; [exact Htemp|]. split; [exact Hdir|].
  exact (generate_yields_document_twice (P := scripted noon) sample_code python
           healthy (py "# add") noon [] Hne eq_refl eq_refl Hdoc eq_refl eq_refl
           Htemp Hdir).
Defined.

Lemma offered_path_holds_the_text_witness :
  In (py "# add", Some (documentation_path noon))
     (yields (log (exec (generate (P := scripted noon) sample_code None python) healthy)))
  /\ files (fs (final (exec (generate (P := scripted noon) sample_code None python)
                         healthy))) !! documentation_path noon = Some (py "# add").
Proof.
  assert (H : In (py "# add", Some (documentation_path noon))
     (yields (log (exec (generate (P := scripted noon) sample_code None python) healthy)))).
  { do 4 right. left. reflexivity. }
  split; [exact H|].
  exact (offered_path_holds_the_text (P := scripted noon) sample_code python
           healthy _ _ H).
Defined.

Lemma generate_touches_only_its_file_witness :
  (forall dt, py "notes.txt" <> documentation_path dt)
  /\ files (fs (final (exec (generate (P := scripted noon) sample_code None python)
                         with_upload))) !! py "notes.txt" = Some (py "keep me").
Proof.
  assert (H : forall dt, py "notes.txt" <> documentation_path dt).
  { intros dt E. apply (f_equal (hd 0)) in E. vm_compute in E. discriminate E. }
  split; [exact H|].
  destruct (generate_touches_only_its_file (P := scripted noon) sample_code python
              with_upload (py "notes.txt") H) as (Hfile & _).
  rewrite Hfile. vm_compute. reflexivity.
Defined.

Lemma other_second_keeps_both_witness :
  valid_datetime noon /\ valid_datetime noon_later
  /\ ~ same_second noon noon_later
  /\ (let r := exec (P := clocked) (save_twice (Y := Empty_set) (py "first") (py "second"))
                 (mkWorld clocked (noon, [noon_later]) empty_fs) in
      documentation_path noon <> documentation_path noon_later
      /\ files (fs (final r)) !! documentation_path noon = Some (py "first")
      /\ files (fs (final r)) !! documentation_path noon_later = Some (py "second")).
Proof.
  assert (H1 : valid_datetime noon) by (unfold valid_datetime, noon; simpl; lia).
  assert (H2 : valid_datetime noon_later)
    by (unfold valid_datetime, noon_later; simpl; lia).
  assert (H3 : ~ same_second noon noon_later).
  { intros (_ & _ & _ & _ & _ & Hs). discriminate Hs. }
  split; [exact H1|]. split; [exact H2|]. split; [exact H3|].
  destruct (other_second_keeps_both (P := clocked) (py "first") (py "second")
              (mkWorld clocked (noon, [noon_later]) empty_fs)
              noon noon_later (noon_later, []) (noon_later, [])
              eq_refl eq_refl H1 H2 H3 eq_refl eq_refl eq_refl
              (not_elem_of_empty _) (not_elem_of_empty _))
    as (_ & Hpath & Hf1 & Hf2).
  cbv zeta. split; [exact Hpath|]. split; [exact Hf1 | exact Hf2].
Defined.

Lemma same_second_save_overwrites_witness :
  same_second noon noon_and_a_half
  /\ files (fs (final (exec (P := clocked)
                         (save_twice (Y := Empty_set) (py "first") (py "second"))
                         (mkWorld clocked (noon, [noon_and_a_half]) empty_fs))))
     = <[documentation_path noon := py "second"]> ∅.
Proof.
  assert (Hsame : same_second noon noon_and_a_half) by (repeat split).
  split; [exact Hsame|].
  destruct (same_second_save_overwrites (P := clocked) (py "first") (py "second")
              (mkWorld clocked (noon, [noon_and_a_half]) empty_fs)
              noon noon_and_a_half (noon_and_a_half, []) (noon_and_a_half, [])
              eq_refl eq_refl Hsame eq_refl eq_refl eq_refl (not_elem_of_empty _))
    as (_ & Hfiles & _).
  exact Hfiles.
Defined.

Lemma dotenv_wins_witness :
  sample_dotenv !! Config.OPENROUTER_API_KEY = Some (py "sk-or-env-file")
  /\ sample_dotenv !! Config.MODEL_VAR = Some (py "anthropic/claude-3-haiku")
  /\ sample_environ !! Config.OPENROUTER_API_KEY = Some (py "sk-or-shell")
  /\ exists s, Config.configure sample_dotenv sample_environ = Ok s
               /\ Config.api_key s = Some (py "sk-or-env-file")
               /\ Config.MODEL s = py "anthropic/claude-3-haiku".
Proof.
  assert (Hk : sample_dotenv !! Config.OPENROUTER_API_KEY = Some (py "sk-or-env-file"))
    by (vm_compute; reflexivity).
  assert (Hm : sample_dotenv !! Config.MODEL_VAR = Some (py "anthropic/claude-3-haiku"))
    by (vm_compute; reflexivity).
  split; [exact Hk|]. split; [exact Hm|]. split; [vm_compute; reflexivity|].
  exact (dotenv_wins sample_dotenv sample_environ _ _ Hk Hm).
Defined.

Lemma configure_keeps_other_variables_witness :
  exists s, Config.configure sample_dotenv sample_environ = Ok s
            /\ py "HOME" <> Config.OPENAI_API_KEY
            /\ py "HOME" <> Config.OPENAI_BASE_URL
            /\ Config.environ_after s !! py "HOME" = Some (py "/home/dev").
Proof.
  assert (Hkey : (sample_dotenv ∪ sample_environ) !! Config.OPENROUTER_API_KEY
                 = Some (py "sk-or-env-file")) by (vm_compute; reflexivity).
  pose proof (configure_with_key _ _ _ Hkey) as Hs.
  assert (H1 : py "HOME" <> Config.OPENAI_API_KEY) by (vm_compute; discriminate).
  assert (H2 : py "HOME" <> Config.OPENAI_BASE_URL) by (vm_compute; discriminate).
  eexists. split; [exact Hs|]. split; [exact H1|]. split; [exact H2|].
  rewrite (configure_keeps_other_variables sample_dotenv sample_environ _
             (py "HOME") Hs H1 H2).
  vm_compute. reflexivity.
Defined.

Lemma configure_again_changes_nothing_witness :
  exists s, load_with (fun _ => sample_dotenv) sample_environ = Ok s
            /\ load_with (fun _ => sample_dotenv) (Config.environ_after s) = Ok s.
Proof.
  assert (Hkey : (sample_dotenv ∪ sample_environ) !! Config.OPENROUTER_API_KEY
                 = Some (py "sk-or-env-file")) by (vm_compute; reflexivity).
  pose proof (configure_with_key _ _ _ Hkey) as Hs.
  eexists. split; [exact Hs|].
  exact (configure_again_changes_nothing (fun _ => sample_dotenv) sample_environ _
           Hs eq_refl).
Defined.

Lemma reviewer_sees_only_the_draft_witness :
  In (doc_writer, sample_writer_input, Ok (py "draft"))
     (calls (log (exec (run_pipeline (P := scripted noon) sample_code python) healthy)))
  /\ In (doc_writer, sample_writer_input_other, Ok (py "draft"))
       (calls (log (exec (run_pipeline (P := scripted noon) sample_code python)
                      healthy_other)))
  /\ In (quality_reviewer, sample_reviewer_input, Ok (py "# add"))
       (calls (log (exec (run_pipeline (P := scripted noon) sample_code python) healthy)))
  /\ In (quality_reviewer, sample_reviewer_input, Ok (py "# add, again"))
       (calls (log (exec (run_pipeline (P := scripted noon) sample_code python)
                      healthy_other)))
  /\ sample_reviewer_input = sample_reviewer_input.
Proof.
  assert (Ha : In (doc_writer, sample_writer_input, Ok (py "draft"))
     (calls (log (exec (run_pipeline (P := scripted noon) sample_code python) healthy))))
    by (right; left; reflexivity).
  assert (Hb : In (doc_writer, sample_writer_input_other, Ok (py "draft"))
     (calls (log (exec (run_pipeline (P := scripted noon) sample_code python)
                    healthy_other))))
    by (right; left; reflexivity).
  assert (Hc : In (quality_reviewer, sample_reviewer_input, Ok (py "# add"))
     (calls (log (exec (run_pipeline (P := scripted noon) sample_code python) healthy))))
    by (right; right; left; reflexivity).
  assert (Hd : In (quality_reviewer, sample_reviewer_input, Ok (py "# add, again"))
     (calls (log (exec (run_pipeline (P := scripted noon) sample_code python)
                    healthy_other))))
    by (right; right; left; reflexivity).
  split; [exact Ha|]. split; [exact Hb|]. split; [exact Hc|]. split; [exact Hd|].
  exact (reviewer_sees_only_the_draft (P := scripted noon) sample_code python
           healthy healthy_other _ _ _ _ _ _ _ Ha Hb Hc Hd).
Defined.
